(** * GithubRepoCrawler: a shallow embedding of [main.py]

    The program downloads the zip archive of a GitHub repository, lists its
    entries, fetches every entry whose file name carries an allowed extension
    from the raw-content endpoint, wraps each fetched text between a start and
    an end marker, and concatenates the resulting fragments.

    The embedding keeps the shape of the Python source: a record for the
    [GitHubAPI] object, an exception-and-state monad for the effects (network
    requests, console output, the output file), and one definition per method,
    under the method's own name. *)

From Stdlib Require Import Ascii ZArith Lia.
From stdpp Require Import base option list gmap strings.

(** ** Python string and list primitives used by the source *)

Module Py.

(** [s.split(sep)] for a one-character separator: never returns the empty
    list, and yields one more piece than there are separators in [s]. *)
Fixpoint split (sep : ascii) (s : string) : list string :=
  match s with
  | EmptyString => [EmptyString]
  | String c rest =>
      if Ascii.eqb c sep then EmptyString :: split sep rest
      else match split sep rest with
           | [] => [String c EmptyString]     (* never: see [split_not_nil] *)
           | piece :: pieces => String c piece :: pieces
           end
  end.

(** [sep.join(pieces)]. *)
Fixpoint join (sep : string) (pieces : list string) : string :=
  match pieces with
  | [] => EmptyString
  | [piece] => piece
  | piece :: more => piece +:+ sep +:+ join sep more
  end.

(** [s.endswith(suffix)]: some tail of [s] is [suffix]. *)
Fixpoint endswith (s suffix : string) : bool :=
  if String.eqb s suffix then true
  else match s with
       | EmptyString => false
       | String _ rest => endswith rest suffix
       end.

(** [any(p(x) for x in xs)]. *)
Definition any {A} (p : A → bool) (xs : list A) : bool := existsb p xs.

(** [s.count(c)] for a one-character [c]. *)
Fixpoint count (c : ascii) (s : string) : nat :=
  match s with
  | EmptyString => 0
  | String c' rest => (if Ascii.eqb c' c then 1 else 0) + count c rest
  end.

(** [s.lower()] on the ASCII letters: [A]..[Z] become [a]..[z], every other
    character is kept. *)
Definition lower_char (c : ascii) : ascii :=
  let n := nat_of_ascii c in
  if (65 <=? n) && (n <=? 90) then ascii_of_nat (n + 32) else c.

Fixpoint lower (s : string) : string :=
  match s with
  | EmptyString => EmptyString
  | String c rest => String (lower_char c) (lower rest)
  end.

End Py.

(** ** Exceptions *)

Inductive exn_class :=
  | IndexError
  | KeyError
  | BadZipFile
  | RequestException   (* a requests failure other than a bad status *)
  | HTTPError.         (* raised by [raise_for_status]; subclass of the former *)

(** An exception value: its class and what [str(e)] gives. *)
Record exn := Exn { exn_cls : exn_class; exn_str : string }.

(** [isinstance(e, requests.exceptions.RequestException)]. *)
Definition is_RequestException (e : exn) : bool :=
  match exn_cls e with
  | RequestException | HTTPError => true
  | _ => false
  end.

(** [isinstance(e, Exception)]: every class above derives from [Exception]. *)
Definition is_Exception (e : exn) : bool := true.

Inductive Outcome (A : Type) :=
  | Return (a : A)
  | Raise (e : exn).
Arguments Return {A} a.
Arguments Raise {A} e.

(** ** The world a run acts on *)

(** requests' [CaseInsensitiveDict], the type of [response.headers]: each
    entry is kept under its lower-cased key, together with the key as it was
    spelled. *)
Record CaseInsensitiveDict := { _store : gmap string (string * string) }.

(** [d[key] = value]. *)
Definition ci_setitem (key value : string) (d : CaseInsensitiveDict) : CaseInsensitiveDict :=
  {| _store := <[Py.lower key := (key, value)]> (_store d) |}.

(** [CaseInsensitiveDict(pairs)]: the pairs are set one after the other. *)
Definition ci_of_list (pairs : list (string * string)) : CaseInsensitiveDict :=
  foldl (λ d pair, ci_setitem (fst pair) (snd pair) d) {| _store := ∅ |} pairs.

Record Response := {
  status_code : Z;
  headers : CaseInsensitiveDict;
  text : string;       (* body, decoded *)
  content : string;    (* body, raw *)
}.

Inductive http_result :=
  | Responded (r : Response)
  | Failed (msg : string).   (* no response: connection error, timeout, ... *)

(** What lies outside the program and stays fixed during a run. *)
Record Env := {
  (* the observed answer of a GET on a URL *)
  http_get : string → http_result;
  (* the message requests puts in the HTTPError of a 4xx/5xx response *)
  http_error_msg : Response → string;
  (* zipfile: the entry names of an archive, or the BadZipFile message *)
  zip_infolist : string → string + list string;
  (* the elapsed time as printed by the [:.3f] format *)
  elapsed : string;
}.

Record World := {
  requested : list string;          (* URLs fetched so far, oldest first *)
  stdout : list string;             (* lines printed so far, oldest first *)
  files : gmap string string;       (* the file system *)
}.

Definition M (A : Type) : Type := World → Outcome A * World.

Definition ret {A} (a : A) : M A := λ w, (Return a, w).
Definition raise {A} (e : exn) : M A := λ w, (Raise e, w).
Definition bind {A B} (m : M A) (k : A → M B) : M B :=
  λ w, match m w with
       | (Return a, w') => k a w'
       | (Raise e, w') => (Raise e, w')
       end.

(** [try: body except <class>: handler]. *)
Definition try_except {A} (body : M A) (catches : exn → bool) (handler : exn → M A) : M A :=
  λ w, match body w with
       | (Return a, w') => (Return a, w')
       | (Raise e, w') => if catches e then handler e w' else (Raise e, w')
       end.

Global Instance M_ret : MRet M := @ret.
Global Instance M_bind : MBind M := λ A B k m, bind m k.

(** [for x in xs: acc = body(acc, x)]. *)
Fixpoint for_each {A B} (body : B → A → M B) (acc : B) (xs : list A) : M B :=
  match xs with
  | [] => ret acc
  | x :: rest => acc' ← body acc x; for_each body acc' rest
  end.

(** [[f(x) for x in xs]]. *)
Fixpoint comprehension {A B} (f : A → M B) (xs : list A) : M (list B) :=
  match xs with
  | [] => ret []
  | x :: rest => y ← f x; ys ← comprehension f rest; ret (y :: ys)
  end.

(** ** Primitive effects *)

Definition LF : string := String "010"%char EmptyString.
Definition DQ : string := String "034"%char EmptyString.
Definition SQ : string := String "039"%char EmptyString.

(** [xs.pop(0)]. *)
Definition pop0 {A} (xs : list A) : M (A * list A) :=
  match xs with
  | [] => raise (Exn IndexError "pop from empty list")
  | x :: rest => ret (x, rest)
  end.

(** [xs[-1]]. *)
Definition index_last {A} (xs : list A) : M A :=
  match last xs with
  | Some x => ret x
  | None => raise (Exn IndexError "list index out of range")
  end.

(** [d[key]] on a [CaseInsensitiveDict]: the lookup goes by the lower-cased
    key, and it is the lower-cased key that a KeyError carries. *)
Definition getitem (d : CaseInsensitiveDict) (key : string) : M string :=
  match _store d !! Py.lower key with
  | Some (_, value) => ret value
  | None => raise (Exn KeyError (SQ +:+ Py.lower key +:+ SQ))
  end.

Definition log_request (url : string) (w : World) : World :=
  {| requested := requested w ++ [url]; stdout := stdout w; files := files w |}.

Definition print (line : string) : M unit :=
  λ w, (Return (),
        {| requested := requested w; stdout := stdout w ++ [line]; files := files w |}).

(** [with open(name, "w") as file: file.write(data)].  The file is taken to
    be writable: a failing [open] or [write] is outside the model. *)
Definition write_file (name data : string) : M unit :=
  λ w, (Return (),
        {| requested := requested w; stdout := stdout w;
           files := <[name := data]> (files w) |}).

(** A [concurrent.futures.Future] whose call has finished: what the call
    returned or raised. *)
Abbreviation Future := (Outcome string).

Section Program.

Context (env : Env).

(** [requests.get(url)] and [session.get(url)].  The answer to a URL is the
    one the environment fixes for the run: two requests to one URL get the
    same answer. *)
Definition requests_get (url : string) : M Response :=
  λ w, match http_get env url with
       | Responded r => (Return r, log_request url w)
       | Failed msg => (Raise (Exn RequestException msg), log_request url w)
       end.

(** The statuses for which requests builds an error message: 4xx and 5xx. *)
Definition http_error_status (status : Z) : bool :=
  ((400 <=? status) && (status <? 600))%Z.

(** [response.raise_for_status()]. *)
Definition raise_for_status (response : Response) : M unit :=
  if http_error_status (status_code response)
  then raise (Exn HTTPError (http_error_msg env response))
  else ret ().

(** [zipfile.ZipFile(BytesIO(data)).infolist()], names only. *)
Definition zip_filenames (data : string) : M (list string) :=
  match zip_infolist env data with
  | inr names => ret names
  | inl msg => raise (Exn BadZipFile msg)
  end.

(** ** class GitHubAPI *)

Record GitHubAPI := {
  owner : string;
  repo : string;
  allowed_extensions : list string;
}.

Definition BASE_URL : string := "https://api.github.com".

Definition __init__ (repository_owner repository_name : string)
    (allowed : option (list string)) : GitHubAPI :=
  {| owner := repository_owner;
     repo := repository_name;
     allowed_extensions := match allowed with
                           | None => [".md"]
                           | Some exts => exts
                           end |}.

Definition _make_request (self : GitHubAPI) (url : string) : M Response :=
  response ← requests_get url;
  raise_for_status response;;
  ret response.

Definition zipball_url (self : GitHubAPI) : string :=
  BASE_URL +:+ "/repos/" +:+ owner self +:+ "/" +:+ repo self +:+ "/zipball/main".

Definition get_archive_url (self : GitHubAPI) : M string :=
  let url := zipball_url self in
  response ← _make_request self url;
  if (status_code response =? 302)%Z then
    redirect_url ← getitem (headers response) "Location";
    ret redirect_url
  else ret url.

Definition get_all_file_paths (self : GitHubAPI) : M (list string) :=
  archive_url ← get_archive_url self;
  response ← _make_request self archive_url;
  zip_filenames (content response).

Definition raw_url (self : GitHubAPI) (path_parts : list string) : string :=
  "https://raw.githubusercontent.com/" +:+ owner self +:+ "/" +:+ repo self
    +:+ "/main/" +:+ Py.join "/" path_parts.

Definition start_marker (url : string) : string :=
  LF +:+ DQ +:+ url +:+ DQ +:+ " starts here" +:+ LF.

Definition end_marker (file_name : string) : string :=
  LF +:+ DQ +:+ file_name +:+ DQ +:+ " ends here" +:+ LF.

Definition _scrape_code_for_file (self : GitHubAPI) (path : string) : M string :=
  try_except
    (let path_parts := Py.split "/" path in
     popped ← pop0 path_parts;
     let path_parts := snd popped in
     file_name ← index_last path_parts;
     if negb (Py.any (λ ext, Py.endswith file_name ext) (allowed_extensions self))
     then ret EmptyString
     else
       let url := raw_url self path_parts in
       response ← requests_get url;
       raise_for_status response;;
       let buffer := start_marker url +:+ text response +:+ end_marker file_name in
       ret buffer)
    is_RequestException
    (λ _, ret EmptyString).

(** ** The process pool

    [executor.submit] hands a call to a worker process and returns a future;
    the pool runs every submitted call to its end, whatever the others do,
    and the [with] block waits for all of them.  A future therefore holds
    what its call returned or raised.  The order in which
    [as_completed] yields the futures is not fixed by the program: it is a
    parameter of the run, the schedule [sched], whose [i]-th number picks
    (modulo the number of futures still pending) the future that finishes
    [i]-th. *)

Definition submit (call : M string) : M Future :=
  λ w, let (o, w') := call w in (Return o, w').

Definition result (future : Future) : M string := λ w, (future, w).

Fixpoint completion_order {A} (n : nat) (sched : list nat) (pending : list A) : list A :=
  match n with
  | O => []
  | S n' =>
      let k := default 0 (head sched) `mod` length pending in
      match pending !! k with
      | Some future => future :: completion_order n' (tail sched) (delete k pending)
      | None => []
      end
  end.

Definition as_completed {A} (sched : list nat) (futures : list A) : list A :=
  completion_order (length futures) sched futures.

(** The body of the [with] block of [scrape_code]. *)
Definition scrape_paths (self : GitHubAPI) (sched : list nat)
    (code_buffer : string) (file_paths : list string) : M string :=
  code_futures ← comprehension (λ path, submit (_scrape_code_for_file self path)) file_paths;
  for_each (λ code_buffer future, fragment ← result future; ret (code_buffer +:+ fragment))
           code_buffer (as_completed sched code_futures).

Definition scrape_code (self : GitHubAPI) (sched : list nat) : M string :=
  let code_buffer := EmptyString in
  file_paths ← get_all_file_paths self;
  scrape_paths self sched code_buffer file_paths.

(** ** Module level: the example run *)

Definition main (sched : list nat) : M unit :=
  let owner := "Shell1010" in
  let repo := "Selfcord" in
  try_except
    (let git := __init__ owner repo None in
     code ← scrape_code git sched;
     print ("Scraping took " +:+ elapsed env +:+ "s");;
     write_file "scraped.txt" code)
    is_Exception
    (λ e, print ("An error occurred: " +:+ exn_str e)).

(** ** The sequential reference run

    What the fan-out is compared with: the same entry list handled one path
    after the other, in list order, in the orchestrating process. *)
Definition scrape_paths_sequential (self : GitHubAPI)
    (code_buffer : string) (file_paths : list string) : M string :=
  for_each (λ code_buffer path,
              fragment ← _scrape_code_for_file self path; ret (code_buffer +:+ fragment))
           code_buffer file_paths.

(** ** Views used in the statements *)

(** What a call of [_scrape_code_for_file] returns or raises; it reads the
    environment only, so the world it starts from does not matter
    (lemma [scrape_file_result]). *)
Definition worker_result (self : GitHubAPI) (path : string) : Future :=
  fst (_scrape_code_for_file self path
         {| requested := []; stdout := []; files := ∅ |}).

(** The fragments a loop appends, kept apart instead of concatenated. *)
Definition collected_parallel (self : GitHubAPI) (sched : list nat)
    (file_paths : list string) : M (list string) :=
  code_futures ← comprehension (λ path, submit (_scrape_code_for_file self path)) file_paths;
  for_each (λ fragments future, fragment ← result future; ret (fragments ++ [fragment]))
           [] (as_completed sched code_futures).

Definition collected_sequential (self : GitHubAPI)
    (file_paths : list string) : M (list string) :=
  for_each (λ fragments path,
              fragment ← _scrape_code_for_file self path; ret (fragments ++ [fragment]))
           [] file_paths.

(** The fetch of a URL fails: no response, or a 4xx/5xx response. *)
Definition fetch_fails (url : string) : bool :=
  match http_get env url with
  | Failed _ => true
  | Responded r => http_error_status (status_code r)
  end.

End Program.

(** All results of a list of finished calls, or the first exception. *)
Fixpoint gather {A} (outs : list (Outcome A)) : Outcome (list A) :=
  match outs with
  | [] => Return []
  | Return a :: rest =>
      match gather rest with
      | Return l => Return (a :: l)
      | Raise e => Raise e
      end
  | Raise e :: _ => Raise e
  end.

(** What a loop leaves in its accumulator, given the results it reads. *)
Definition loop_outcome {B} (step : B → string → B) (acc : B)
    (outs : list Future) : Outcome B :=
  match gather outs with
  | Return fragments => Return (foldl step acc fragments)
  | Raise e => Raise e
  end.

(** The concatenation of a list of fragments, in list order. *)
Definition joined (fragments : list string) : string :=
  foldr String.append EmptyString fragments.

(** A computation leaves the console and the file system as they are. *)
Definition frames {A} (m : M A) : Prop :=
  ∀ w, stdout (snd (m w)) = stdout w ∧ files (snd (m w)) = files w.

Definition IndexError_out_of_range : exn := Exn IndexError "list index out of range".


(** ** Example environments *)

Definition example_response (status : Z) (body : string) : Response :=
  {| status_code := status; headers := ci_of_list []; text := body; content := body |}.

Definition redirect_response (location : string) : Response :=
  {| status_code := 302; headers := ci_of_list [("Location", location)];
     text := EmptyString; content := EmptyString |}.

(** A provider that serves a small archive and three of its files. *)
Definition example_env : Env := {|
  http_get := λ url,
    if String.eqb url "https://api.github.com/repos/Shell1010/Selfcord/zipball/main"
    then Responded (example_response 200 "PK")
    else if String.eqb url "https://raw.githubusercontent.com/Shell1010/Selfcord/main/README.md"
    then Responded (example_response 200 "hello")
    else if String.eqb url "https://raw.githubusercontent.com/Shell1010/Selfcord/main/docs/empty.md"
    then Responded (example_response 200 EmptyString)
    else if String.eqb url "https://raw.githubusercontent.com/Shell1010/Selfcord/main/docs/gone.md"
    then Responded (example_response 404 "Not Found")
    else Failed "connection refused";
  http_error_msg := λ _, "404 Client Error: Not Found";
  zip_infolist := λ data,
    if String.eqb data "PK"
    then inr ["Selfcord-abc123/"; "Selfcord-abc123/README.md"; "Selfcord-abc123/docs/";
              "Selfcord-abc123/docs/empty.md"; "Selfcord-abc123/docs/gone.md";
              "Selfcord-abc123/src/main.go"]
    else inl "File is not a zip file";
  elapsed := "0.123" |}.

(** A provider that answers 404 to everything. *)
Definition missing_env : Env := {|
  http_get := λ _, Responded (example_response 404 "Not Found");
  http_error_msg := λ _, "404 Client Error: Not Found";
  zip_infolist := λ _, inl "File is not a zip file";
  elapsed := "0.000" |}.

(** A provider whose archive endpoint shows its redirect. *)
Definition redirect_env : Env := {|
  http_get := λ _, Responded (redirect_response "https://codeload.github.com/x.zip");
  http_error_msg := λ _, EmptyString;
  zip_infolist := λ _, inl "File is not a zip file";
  elapsed := "0.000" |}.

(** A provider that lists an entry without a separator. *)
Definition flat_env : Env := {|
  http_get := λ _, Responded (example_response 200 "PK");
  http_error_msg := λ _, EmptyString;
  zip_infolist := λ _, inr ["Selfcord-abc123/README.md"; "README.md"];
  elapsed := "0.000" |}.

Definition example_git : GitHubAPI := __init__ "Shell1010" "Selfcord" None.

(** The same repository with the empty suffix allowed, and with nothing
    allowed. *)
Definition any_suffix_git : GitHubAPI :=
  __init__ "Shell1010" "Selfcord" (Some [EmptyString]).

Definition no_suffix_git : GitHubAPI := __init__ "Shell1010" "Selfcord" (Some []).

(** A provider whose archive endpoint shows a redirect without a target. *)
Definition bare_redirect_env : Env := {|
  http_get := λ _, Responded (example_response 302 EmptyString);
  http_error_msg := λ _, EmptyString;
  zip_infolist := λ _, inl "File is not a zip file";
  elapsed := "0.000" |}.

(** A provider that redirects the archive endpoint to a download host. *)
Definition codeload_env : Env := {|
  http_get := λ url,
    if String.eqb url "https://api.github.com/repos/Shell1010/Selfcord/zipball/main"
    then Responded (redirect_response "https://codeload.github.com/x.zip")
    else if String.eqb url "https://codeload.github.com/x.zip"
    then Responded (example_response 200 "PK")
    else Failed "connection refused";
  http_error_msg := λ _, EmptyString;
  zip_infolist := λ data,
    if String.eqb data "PK" then inr ["Selfcord-abc123/"; "Selfcord-abc123/README.md"]
    else inl "File is not a zip file";
  elapsed := "0.000" |}.

(** A provider whose archive endpoint answers 304. *)
Definition not_modified_env : Env := {|
  http_get := λ _, Responded (example_response 304 EmptyString);
  http_error_msg := λ _, EmptyString;
  zip_infolist := λ _, inl "File is not a zip file";
  elapsed := "0.000" |}.

(** A provider whose redirect spells its header in lower case. *)
Definition lowercase_redirect_env : Env := {|
  http_get := λ _,
    Responded {| status_code := 302;
                 headers := ci_of_list [("location", "https://codeload.github.com/x.zip")];
                 text := EmptyString; content := EmptyString |};
  http_error_msg := λ _, EmptyString;
  zip_infolist := λ _, inl "File is not a zip file";
  elapsed := "0.000" |}.

(** A text that quotes a start marker line and an end marker line. *)
Definition quoted_markers : string :=
  DQ +:+ "x" +:+ DQ +:+ " starts here" +:+ LF +:+ DQ +:+ "x" +:+ DQ +:+ " ends here".

(** A provider whose files all hold that text. *)
Definition quoting_env : Env := {|
  http_get := λ _, Responded (example_response 200 quoted_markers);
  http_error_msg := λ _, EmptyString;
  zip_infolist := λ _, inl "File is not a zip file";
  elapsed := "0.000" |}.

(** ** Marker lines

    A start marker is a line that ends with the text [" starts here], an end
    marker a line that ends with [" ends here]; the markers of a text are
    counted over its lines. *)
Fixpoint count_lines (test : string → bool) (lines : list string) : nat :=
  match lines with
  | [] => 0
  | line :: rest => (if test line then 1 else 0) + count_lines test rest
  end.

Definition is_start_marker (line : string) : bool :=
  Py.endswith line (DQ +:+ " starts here").

Definition is_end_marker (line : string) : bool :=
  Py.endswith line (DQ +:+ " ends here").

Definition start_markers (s : string) : nat :=
  count_lines is_start_marker (Py.split "010" s).

Definition end_markers (s : string) : nat :=
  count_lines is_end_marker (Py.split "010" s).

(** The URL a call of [_scrape_code_for_file] requests for an entry path, if
    it requests one: the path has a file name and the name passes the
    extension test. *)
Definition request_of (self : GitHubAPI) (path : string) : option string :=
  match last (tail (Py.split "/" path)) with
  | Some file_name =>
      if Py.any (λ ext, Py.endswith file_name ext) (allowed_extensions self)
      then Some (raw_url self (tail (Py.split "/" path)))
      else None
  | None => None
  end.

Definition initial_world : World := {| requested := []; stdout := []; files := ∅ |}.

(** * Properties *)

(** ** The model at work *)

Example split_entry :
  Py.split "/" "repo-abc123/src/main.go" = ["repo-abc123"; "src"; "main.go"].
Proof. reflexivity. Qed.

Example split_directory : Py.split "/" "repo-abc123/" = ["repo-abc123"; EmptyString].
Proof. reflexivity. Qed.

Example split_empty : Py.split "/" EmptyString = [EmptyString].
Proof. reflexivity. Qed.

Example endswith_md :
  Py.endswith "README.md" ".md" = true ∧ Py.endswith "main.go" ".md" = false
  ∧ Py.endswith "md" ".md" = false ∧ Py.endswith "x" EmptyString = true.
Proof. repeat split; reflexivity. Qed.

Example completion_order_example :
  as_completed [2; 0; 5] [10; 20; 30; 40] = [30; 10; 40; 20].
Proof. reflexivity. Qed.

(** The example run: two entries contribute, in completion order. *)
Example example_run_in_submission_order :
  files (snd (main example_env [] initial_world)) !! "scraped.txt"
  = Some ((start_marker "https://raw.githubusercontent.com/Shell1010/Selfcord/main/README.md"
             +:+ "hello" +:+ end_marker "README.md")
          +:+ (start_marker
                 "https://raw.githubusercontent.com/Shell1010/Selfcord/main/docs/empty.md"
                 +:+ EmptyString +:+ end_marker "empty.md")).
Proof. vm_compute. reflexivity. Qed.

Example example_run_other_order :
  files (snd (main example_env [3] initial_world)) !! "scraped.txt"
  = Some ((start_marker
             "https://raw.githubusercontent.com/Shell1010/Selfcord/main/docs/empty.md"
             +:+ EmptyString +:+ end_marker "empty.md")
          +:+ (start_marker
                 "https://raw.githubusercontent.com/Shell1010/Selfcord/main/README.md"
                 +:+ "hello" +:+ end_marker "README.md")).
Proof. vm_compute. reflexivity. Qed.

Example example_run_requests :
  requested (snd (main example_env [3] initial_world))
  = ["https://api.github.com/repos/Shell1010/Selfcord/zipball/main";
     "https://api.github.com/repos/Shell1010/Selfcord/zipball/main";
     "https://raw.githubusercontent.com/Shell1010/Selfcord/main/README.md";
     "https://raw.githubusercontent.com/Shell1010/Selfcord/main/docs/empty.md";
     "https://raw.githubusercontent.com/Shell1010/Selfcord/main/docs/gone.md"].
Proof. reflexivity. Qed.

(** ** Strings and lists *)

Section PyFacts.

Lemma string_app_cons_eq c s1 s2 : String c s1 +:+ s2 = String c (s1 +:+ s2).
Proof. reflexivity. Qed.

Lemma split_not_nil sep s : Py.split sep s ≠ [].
Proof.
  destruct s as [|c s]; simpl; [done|].
  destruct (Ascii.eqb c sep); [done|].
  by destruct (Py.split sep s).
Qed.

Lemma split_length sep s : length (Py.split sep s) = S (Py.count sep s).
Proof.
  induction s as [|c s IH]; simpl; [done|].
  destruct (Ascii.eqb c sep); simpl; [by rewrite IH|].
  destruct (Py.split sep s); simpl in *; lia.
Qed.

(** Without a separator the string is its own single piece. *)
Lemma split_no_sep sep s : Py.count sep s = 0 → Py.split sep s = [s].
Proof.
  induction s as [|c s IH]; simpl; [done|].
  destruct (Ascii.eqb c sep); simpl; [done|].
  intros Hc. by rewrite IH.
Qed.

Lemma split_app_sep sep s :
  Py.split sep (s +:+ String sep EmptyString) = Py.split sep s ++ [EmptyString].
Proof.
  induction s as [|c s IH]; simpl.
  - by rewrite Ascii.eqb_refl.
  - destruct (Ascii.eqb c sep); [by rewrite IH|].
    rewrite IH. pose proof (split_not_nil sep s).
    by destruct (Py.split sep s).
Qed.

(** The first piece ends at the first separator. *)
Lemma split_first_piece sep top rest :
  Py.count sep top = 0 →
  Py.split sep (top +:+ String sep rest) = top :: Py.split sep rest.
Proof.
  induction top as [|c top IH]; simpl.
  - by rewrite Ascii.eqb_refl.
  - destruct (Ascii.eqb c sep); [done|]. intros Hcount.
    by rewrite IH.
Qed.

(** Joining the pieces with the separator gives the string back. *)
Lemma join_split sep s : Py.join (String sep EmptyString) (Py.split sep s) = s.
Proof.
  induction s as [|c s IH]; simpl; [done|].
  pose proof (split_not_nil sep s) as Hne.
  destruct (Ascii.eqb_spec c sep) as [->|_].
  - destruct (Py.split sep s) as [|piece pieces]; [done|].
    cbn [Py.join] in *. by rewrite IH.
  - destruct (Py.split sep s) as [|piece [|piece' pieces]]; [done|..].
    + simpl in *. by rewrite IH.
    + cbn [Py.join] in *. by rewrite string_app_cons_eq, IH.
Qed.

Lemma endswith_refl s : Py.endswith s s = true.
Proof. destruct s; cbn [Py.endswith]; by rewrite String.eqb_refl. Qed.

Lemma endswith_spec s suffix :
  Py.endswith s suffix = true ↔ ∃ front, s = front +:+ suffix.
Proof.
  split.
  - induction s as [|c s IH]; cbn [Py.endswith].
    + destruct (String.eqb_spec EmptyString suffix) as [<-|]; [|done].
      by exists EmptyString.
    + destruct (String.eqb_spec (String c s) suffix) as [<-|].
      * by exists EmptyString.
      * intros [front ->]%IH. by exists (String c front).
  - intros [front ->]. induction front as [|c front IH].
    + apply endswith_refl.
    + change (String c front +:+ suffix) with (String c (front +:+ suffix)).
      cbn [Py.endswith]. rewrite IH. by destruct (String.eqb _ _).
Qed.

(** The empty file name ends with the empty suffix only. *)
Lemma endswith_empty suffix :
  suffix ≠ EmptyString → Py.endswith EmptyString suffix = false.
Proof.
  intros Hne. cbn [Py.endswith].
  by destruct (String.eqb_spec EmptyString suffix).
Qed.

Lemma any_false {A} (p : A → bool) xs :
  Forall (λ x, p x = false) xs → Py.any p xs = false.
Proof. unfold Py.any. induction 1 as [|x xs Hx _ IH]; simpl; [done|]. by rewrite Hx. Qed.

Lemma string_app_empty_r s : s +:+ EmptyString = s.
Proof. induction s as [|c s IH]; [done|]. by rewrite string_app_cons_eq, IH. Qed.

Lemma string_app_assoc s1 s2 s3 : (s1 +:+ s2) +:+ s3 = s1 +:+ s2 +:+ s3.
Proof. induction s1 as [|c s1 IH]; [done|]. by rewrite !string_app_cons_eq, IH. Qed.

Lemma string_app_length s1 s2 :
  String.length (s1 +:+ s2) = String.length s1 + String.length s2.
Proof.
  induction s1 as [|c s1 IH]; [done|].
  rewrite string_app_cons_eq. simpl. by rewrite IH.
Qed.

End PyFacts.

(** ** The per-file fetcher *)

Ltac run := unfold mbind, M_bind, mret, M_ret, bind, ret, raise, try_except in *.

Section Worker.

Context (env : Env) (self : GitHubAPI).

(** The method, case by case. *)
Lemma scrape_file_unfold path w :
  _scrape_code_for_file env self path w =
  match last (tail (Py.split "/" path)) with
  | None => (Raise IndexError_out_of_range, w)
  | Some file_name =>
      if Py.any (λ ext, Py.endswith file_name ext) (allowed_extensions self) then
        let url := raw_url self (tail (Py.split "/" path)) in
        match http_get env url with
        | Failed _ => (Return EmptyString, log_request url w)
        | Responded r =>
            if http_error_status (status_code r)
            then (Return EmptyString, log_request url w)
            else (Return (start_marker url +:+ text r +:+ end_marker file_name),
                  log_request url w)
        end
      else (Return EmptyString, w)
  end.
Proof.
  unfold _scrape_code_for_file, index_last, requests_get, raise_for_status, pop0.
  pose proof (split_not_nil "/" path) as Hne.
  destruct (Py.split "/" path) as [|top path_parts]; [done|].
  run. cbn [snd tail].
  destruct (last path_parts) as [file_name|]; [|done].
  destruct (Py.any _ _); cbn [negb]; [|done].
  destruct (http_get env _) as [r|msg]; [|done].
  by destruct (http_error_status _).
Qed.

Lemma scrape_file_result path w :
  fst (_scrape_code_for_file env self path w) = worker_result env self path.
Proof.
  unfold worker_result. rewrite !scrape_file_unfold.
  destruct (last _); [|done]. destruct (Py.any _ _); [|done]. cbn zeta.
  destruct (http_get env _); [|done]. by destruct (http_error_status _).
Qed.

(** A call touches neither the console nor the file system. *)
Lemma scrape_file_frame path w :
  stdout (snd (_scrape_code_for_file env self path w)) = stdout w ∧
  files (snd (_scrape_code_for_file env self path w)) = files w.
Proof.
  rewrite scrape_file_unfold.
  destruct (last _); [|done]. destruct (Py.any _ _); [|done]. cbn zeta.
  destruct (http_get env _); [|done]. by destruct (http_error_status _).
Qed.

(** The only exception a call lets through. *)
Lemma worker_result_raise path e :
  worker_result env self path = Raise e → e = IndexError_out_of_range.
Proof.
  unfold worker_result. rewrite scrape_file_unfold.
  destruct (last _); [|by intros [= <-]].
  destruct (Py.any _ _); [|done]. cbn zeta.
  destruct (http_get env _); [|done]. by destruct (http_error_status _).
Qed.

End Worker.

(** ** Completion orders *)

Section Completion.

Context {A : Type}.
Implicit Types (pending futures : list A) (sched : list nat).

Lemma completion_order_perm n sched pending :
  n = length pending → completion_order n sched pending ≡ₚ pending.
Proof.
  revert sched pending. induction n as [|n IH]; intros sched pending Hn; simpl.
  - by destruct pending.
  - set (k := default 0 (head sched) `mod` length pending).
    assert (k < length pending) as Hk
      by (apply Nat.mod_upper_bound; lia).
    destruct (lookup_lt_is_Some_2 _ _ Hk) as [future Hfuture].
    rewrite Hfuture.
    etrans; [|symmetry; by apply (delete_Permutation pending k future)].
    constructor. apply IH. rewrite length_delete by eauto. lia.
Qed.

(** Every future is yielded exactly once. *)
Lemma as_completed_perm sched futures : as_completed sched futures ≡ₚ futures.
Proof. by apply completion_order_perm. Qed.

(** Every order is the completion order of some schedule. *)
Lemma as_completed_complete futures order :
  order ≡ₚ futures → ∃ sched, as_completed sched futures = order.
Proof.
  unfold as_completed. revert futures.
  induction order as [|future order IH]; intros futures Hperm.
  - apply Permutation_nil in Hperm as ->. by exists [].
  - assert (future ∈ futures) as [k Hk]%list_elem_of_lookup
      by (rewrite <- Hperm; left).
    pose proof (lookup_lt_Some _ _ _ Hk) as Hlt.
    destruct (IH (delete k futures)) as [sched Hsched].
    { apply (Permutation_cons_inv (a := future)).
      etrans; [exact Hperm|]. by apply delete_Permutation. }
    exists (k :: sched).
    rewrite length_delete in Hsched by eauto.
    destruct (length futures) as [|n] eqn:Hlen; [lia|].
    cbn [completion_order head default tail id] in *.
    rewrite Nat.mod_small by lia. rewrite Hk. f_equal.
    rewrite <- Hsched. f_equal. lia.
Qed.

End Completion.

(** ** Gathering results *)

Section Gather.

Context {A : Type}.
Implicit Types (outs : list (Outcome A)) (l : list A).

Lemma gather_Return outs l : gather outs = Return l ↔ outs = Return <$> l.
Proof.
  revert l. induction outs as [|[a|e] outs IH]; intros l; simpl.
  - split; [intros [= <-]|intros Hl; destruct l]; done.
  - destruct (gather outs) as [l'|e'].
    + split.
      * intros [= <-]. simpl. f_equal. by apply IH.
      * destruct l as [|a' l'']; intros [= -> Hl]. f_equal. f_equal.
        apply IH in Hl. congruence.
    + split; [done|]. destruct l as [|a' l'']; intros [= -> Hl].
      by apply IH in Hl.
  - split; [done|]. by destruct l.
Qed.

Lemma gather_fmap_Return l : gather (Return <$> l) = Return l.
Proof. by apply gather_Return. Qed.

Lemma gather_Raise outs e : gather outs = Raise e → Raise e ∈ outs.
Proof.
  induction outs as [|[a|e'] outs IH]; simpl; [done| |].
  - destruct (gather outs); [done|]. intros [= ->]. right. by apply IH.
  - intros [= ->]. left.
Qed.

(** Reordering finished calls reorders the results, and raises if and
    only if the original order does. *)
Lemma gather_perm outs outs' :
  outs ≡ₚ outs' →
  (∀ e e', Raise e ∈ outs → Raise e' ∈ outs → e = e') →
  match gather outs, gather outs' with
  | Return l, Return l' => l ≡ₚ l'
  | Raise e, Raise e' => e = e'
  | _, _ => False
  end.
Proof.
  intros Hperm Hsame.
  destruct (gather outs) as [l|e] eqn:Hg, (gather outs') as [l'|e'] eqn:Hg'.
  - apply gather_Return in Hg as ->. symmetry in Hperm.
    apply Permutation_map_inv in Hperm as (l3 & -> & Hl3).
    change (gather (Return <$> l3) = Return l') in Hg'.
    rewrite gather_fmap_Return in Hg'. by injection Hg' as <-.
  - apply gather_Return in Hg as ->. apply gather_Raise in Hg'.
    rewrite <- Hperm in Hg'. by apply list_elem_of_fmap in Hg' as (? & [=] & _).
  - apply gather_Return in Hg' as ->. apply gather_Raise in Hg.
    rewrite Hperm in Hg. by apply list_elem_of_fmap in Hg as (? & [=] & _).
  - apply gather_Raise in Hg, Hg'. rewrite <- Hperm in Hg'. by apply Hsame.
Qed.

Lemma gather_app outs1 outs2 :
  gather (outs1 ++ outs2) =
  match gather outs1, gather outs2 with
  | Return l1, Return l2 => Return (l1 ++ l2)
  | Raise e, _ => Raise e
  | Return _, Raise e => Raise e
  end.
Proof.
  induction outs1 as [|[a|e] outs1 IH]; simpl.
  - by destruct (gather outs2).
  - rewrite IH. by destruct (gather outs1), (gather outs2).
  - done.
Qed.

End Gather.

(** ** The fan-out and the fan-in *)

Section Pool.

Context (env : Env) (self : GitHubAPI).

Lemma foldl_append code_buffer fragments :
  foldl (λ buffer fragment, buffer +:+ fragment) code_buffer fragments
  = code_buffer +:+ joined fragments.
Proof.
  revert code_buffer. induction fragments as [|fragment fragments IH];
    intros code_buffer; simpl.
  - by rewrite string_app_empty_r.
  - by rewrite IH, string_app_assoc.
Qed.

Lemma foldl_snoc (acc fragments : list string) :
  foldl (λ acc fragment, acc ++ [fragment]) acc fragments = acc ++ fragments.
Proof.
  revert acc. induction fragments as [|fragment fragments IH]; intros acc; simpl.
  - by rewrite app_nil_r.
  - by rewrite IH, <- app_assoc.
Qed.

Lemma for_each_result {B} (step : B → string → B) acc (futures : list Future) w :
  for_each (λ acc future, fragment ← result future; ret (step acc fragment))
           acc futures w
  = (loop_outcome step acc futures, w).
Proof.
  unfold loop_outcome. revert acc.
  induction futures as [|[fragment|e] futures IH]; intros acc;
    cbn [for_each gather]; [done| |done].
  run. unfold result in *. rewrite IH. by destruct (gather futures).
Qed.

Lemma submit_all file_paths w :
  ∃ w', comprehension (λ path, submit (_scrape_code_for_file env self path)) file_paths w
        = (Return (worker_result env self <$> file_paths), w')
        ∧ stdout w' = stdout w ∧ files w' = files w.
Proof.
  revert w. induction file_paths as [|path file_paths IH]; intros w;
    cbn [comprehension fmap list_fmap].
  - by exists w.
  - run. unfold submit in *.
    pose proof (scrape_file_result env self path w) as Hres.
    pose proof (scrape_file_frame env self path w) as [Hout Hfiles].
    destruct (_scrape_code_for_file env self path w) as [o w1].
    cbn beta iota zeta.
    destruct (IH w1) as (w' & -> & Hout' & Hfiles'). exists w'.
    simpl in *. subst o. split; [done|]. split; congruence.
Qed.

Lemma for_each_worker {B} (step : B → string → B) acc file_paths w :
  ∃ w', for_each (λ acc path,
                    fragment ← _scrape_code_for_file env self path;
                    ret (step acc fragment)) acc file_paths w
        = (loop_outcome step acc (worker_result env self <$> file_paths), w')
        ∧ stdout w' = stdout w ∧ files w' = files w.
Proof.
  unfold loop_outcome. revert acc w.
  induction file_paths as [|path file_paths IH]; intros acc w;
    cbn [for_each fmap list_fmap gather].
  - by exists w.
  - run.
    pose proof (scrape_file_result env self path w) as Hres.
    pose proof (scrape_file_frame env self path w) as [Hout Hfiles].
    destruct (_scrape_code_for_file env self path w) as [o w1].
    cbn beta iota zeta. simpl in Hres, Hout, Hfiles. subst o.
    destruct (worker_result env self path) as [fragment|e].
    + destruct (IH (step acc fragment) w1) as (w' & -> & Hout' & Hfiles').
      exists w'. split; [by destruct (gather _)|]. split; congruence.
    + by exists w1.
Qed.

Lemma fan_out_fan_in {B} (step : B → string → B) acc sched file_paths w :
  ∃ w', (code_futures ← comprehension (λ path, submit (_scrape_code_for_file env self path))
                                      file_paths;
         for_each (λ acc future, fragment ← result future; ret (step acc fragment))
                  acc (as_completed sched code_futures)) w
        = (loop_outcome step acc (as_completed sched (worker_result env self <$> file_paths)), w')
        ∧ stdout w' = stdout w ∧ files w' = files w.
Proof.
  destruct (submit_all file_paths w) as (w' & Hsub & Hframe). exists w'.
  split; [|done]. run. rewrite Hsub. apply for_each_result.
Qed.

End Pool.

(** ** Parallel against sequential collection *)

Section Refinement.

Context (env : Env) (self : GitHubAPI).

Lemma collected_parallel_run sched file_paths w :
  fst (collected_parallel env self sched file_paths w)
  = gather (as_completed sched (worker_result env self <$> file_paths)).
Proof.
  unfold collected_parallel.
  destruct (fan_out_fan_in env self (λ acc fragment, acc ++ [fragment]) []
              sched file_paths w) as (w' & -> & _).
  unfold loop_outcome. cbn [fst].
  destruct (gather _); [|done]. by rewrite foldl_snoc.
Qed.

Lemma collected_sequential_run file_paths w :
  fst (collected_sequential env self file_paths w)
  = gather (worker_result env self <$> file_paths).
Proof.
  unfold collected_sequential.
  destruct (for_each_worker env self (λ acc fragment, acc ++ [fragment]) []
              file_paths w) as (w' & -> & _).
  unfold loop_outcome. cbn [fst].
  destruct (gather _); [|done]. by rewrite foldl_snoc.
Qed.

Lemma scrape_paths_run sched code_buffer file_paths w :
  fst (scrape_paths env self sched code_buffer file_paths w)
  = match gather (as_completed sched (worker_result env self <$> file_paths)) with
    | Return fragments => Return (code_buffer +:+ joined fragments)
    | Raise e => Raise e
    end.
Proof.
  unfold scrape_paths.
  destruct (fan_out_fan_in env self (λ buffer fragment, buffer +:+ fragment)
              code_buffer sched file_paths w) as (w' & -> & _).
  unfold loop_outcome. cbn [fst].
  destruct (gather _); [|done]. by rewrite foldl_append.
Qed.

Lemma scrape_paths_sequential_run code_buffer file_paths w :
  fst (scrape_paths_sequential env self code_buffer file_paths w)
  = match gather (worker_result env self <$> file_paths) with
    | Return fragments => Return (code_buffer +:+ joined fragments)
    | Raise e => Raise e
    end.
Proof.
  unfold scrape_paths_sequential.
  destruct (for_each_worker env self (λ buffer fragment, buffer +:+ fragment)
              code_buffer file_paths w) as (w' & -> & _).
  unfold loop_outcome. cbn [fst].
  destruct (gather _); [|done]. by rewrite foldl_append.
Qed.

Lemma scrape_paths_frame sched code_buffer file_paths w :
  stdout (snd (scrape_paths env self sched code_buffer file_paths w)) = stdout w
  ∧ files (snd (scrape_paths env self sched code_buffer file_paths w)) = files w.
Proof.
  unfold scrape_paths.
  by destruct (fan_out_fan_in env self (λ buffer fragment, buffer +:+ fragment)
                 code_buffer sched file_paths w) as (w' & -> & ?).
Qed.

(** The requests of a run are those of its submitted calls. *)
Lemma scrape_paths_world sched code_buffer file_paths w :
  snd (scrape_paths env self sched code_buffer file_paths w)
  = snd (comprehension (λ path, submit (_scrape_code_for_file env self path))
           file_paths w).
Proof.
  destruct (submit_all env self file_paths w) as (w' & Hsub & _).
  transitivity
    (snd (loop_outcome (λ buffer fragment, buffer +:+ fragment) code_buffer
            (as_completed sched (worker_result env self <$> file_paths)), w')).
  - f_equal. unfold scrape_paths. run. rewrite Hsub. apply for_each_result.
  - by rewrite Hsub.
Qed.

Lemma workers_raise_alike (file_paths : list string) e e' :
  Raise e ∈ worker_result env self <$> file_paths →
  Raise e' ∈ worker_result env self <$> file_paths →
  e = e'.
Proof.
  intros (p & Hp & _)%list_elem_of_fmap (p' & Hp' & _)%list_elem_of_fmap.
  symmetry in Hp, Hp'.
  apply worker_result_raise in Hp, Hp'. congruence.
Qed.

(** C1. Whatever the completion order, the parallel collection appends
    the same fragments as the sequential run over the same entry list and
    the same fetch results, as a multiset: the two fragment lists are
    permutations of each other and each buffer is the concatenation of its
    list.  Both runs raise, with the same exception, in the same cases. *)
Theorem parallel_scrape_same_fragments sched code_buffer file_paths w :
  match fst (collected_parallel env self sched file_paths w),
        fst (collected_sequential env self file_paths w) with
  | Return par, Return seq =>
      par ≡ₚ seq
      ∧ fst (scrape_paths env self sched code_buffer file_paths w)
        = Return (code_buffer +:+ joined par)
      ∧ fst (scrape_paths_sequential env self code_buffer file_paths w)
        = Return (code_buffer +:+ joined seq)
  | Raise e, Raise e' =>
      e = e'
      ∧ fst (scrape_paths env self sched code_buffer file_paths w) = Raise e
      ∧ fst (scrape_paths_sequential env self code_buffer file_paths w) = Raise e
  | _, _ => False
  end.
Proof.
  rewrite collected_parallel_run, collected_sequential_run,
    scrape_paths_run, scrape_paths_sequential_run.
  set (outs := worker_result env self <$> file_paths).
  assert (match gather (as_completed sched outs), gather outs with
          | Return par, Return seq => par ≡ₚ seq
          | Raise e, Raise e' => e = e'
          | _, _ => False
          end) as Hperm.
  { apply gather_perm; [apply as_completed_perm|].
    intros e e' He He'. rewrite as_completed_perm in He, He'.
    by eapply workers_raise_alike. }
  clearbody outs.
  destruct (gather (as_completed sched outs)) as [par|e],
           (gather outs) as [seq|e']; naive_solver.
Qed.

End Refinement.

(** ** What one entry contributes to the buffer *)

Lemma joined_app fragments1 fragments2 :
  joined (fragments1 ++ fragments2) = joined fragments1 +:+ joined fragments2.
Proof.
  unfold joined. induction fragments1 as [|fragment fragments1 IH]; simpl; [done|].
  by rewrite IH, string_app_assoc.
Qed.

Lemma gather_all_Return {A} (outs : list (Outcome A)) :
  Forall (λ o, ∃ a, o = Return a) outs → ∃ l, gather outs = Return l.
Proof.
  induction 1 as [|o outs [a ->] _ [l IH]]; simpl; [by eexists|].
  rewrite IH. by eexists.
Qed.

Section Contribution.

Context (env : Env) (self : GitHubAPI).

Lemma file_name_is_Some path :
  Py.count "/" path ≠ 0 → is_Some (last (tail (Py.split "/" path))).
Proof.
  intros Hcount. pose proof (split_length "/" path) as Hlen.
  destruct (Py.split "/" path) as [|top [|part parts]]; simpl in Hlen; [lia..|].
  cbn [tail]. destruct (last (part :: parts)) eqn:Hlast; [by eexists|].
  by apply last_None in Hlast.
Qed.

Lemma file_name_None path :
  Py.count "/" path = 0 → last (tail (Py.split "/" path)) = None.
Proof. intros Hcount. by rewrite split_no_sep. Qed.

Lemma worker_result_unfold path :
  worker_result env self path =
  match last (tail (Py.split "/" path)) with
  | None => Raise IndexError_out_of_range
  | Some file_name =>
      if Py.any (λ ext, Py.endswith file_name ext) (allowed_extensions self) then
        let url := raw_url self (tail (Py.split "/" path)) in
        match http_get env url with
        | Failed _ => Return EmptyString
        | Responded r =>
            if http_error_status (status_code r) then Return EmptyString
            else Return (start_marker url +:+ text r +:+ end_marker file_name)
        end
      else Return EmptyString
  end.
Proof.
  unfold worker_result. rewrite scrape_file_unfold.
  destruct (last _); [|done]. destruct (Py.any _ _); [|done]. cbn zeta.
  destruct (http_get env _); [|done]. by destruct (http_error_status _).
Qed.

(** An archive entry [top/relative]: the top directory is dropped and the
    URL is the raw-content URL of the relative path. *)
Lemma entry_path_anatomy top relative :
  Py.count "/" top = 0 →
  tail (Py.split "/" (top +:+ "/" +:+ relative)) = Py.split "/" relative
  ∧ raw_url self (tail (Py.split "/" (top +:+ "/" +:+ relative)))
    = "https://raw.githubusercontent.com/" +:+ owner self +:+ "/" +:+ repo self
        +:+ "/main/" +:+ relative.
Proof.
  intros Htop.
  change (top +:+ "/" +:+ relative) with (top +:+ String "/"%char relative).
  rewrite split_first_piece by done. cbn [tail]. split; [done|].
  unfold raw_url. change "/" with (String "/"%char EmptyString) at 2.
  by rewrite join_split.
Qed.

(** An entry with a separator never raises. *)
Lemma worker_result_returns path :
  Py.count "/" path ≠ 0 → ∃ fragment, worker_result env self path = Return fragment.
Proof.
  intros [file_name Hname]%file_name_is_Some.
  rewrite worker_result_unfold, Hname.
  destruct (Py.any _ _); [|by eexists]. cbn zeta.
  destruct (http_get env _); [|by eexists].
  destruct (http_error_status _); by eexists.
Qed.

Lemma scrape_paths_returns sched code_buffer file_paths w :
  Forall (λ path, ∃ fragment, worker_result env self path = Return fragment) file_paths →
  ∃ code, fst (scrape_paths env self sched code_buffer file_paths w) = Return code.
Proof.
  intros Hall. rewrite scrape_paths_run.
  destruct (gather_all_Return
              (as_completed sched (worker_result env self <$> file_paths))) as [l ->];
    [|by eexists].
  rewrite as_completed_perm. by apply Forall_fmap.
Qed.

Lemma scrape_paths_raises sched code_buffer file_paths path e w :
  path ∈ file_paths →
  worker_result env self path = Raise e →
  fst (scrape_paths env self sched code_buffer file_paths w) = Raise e.
Proof.
  intros Hin Hraise. rewrite scrape_paths_run.
  assert (Raise e ∈ as_completed sched (worker_result env self <$> file_paths)) as He.
  { rewrite as_completed_perm, <- Hraise. by apply list_elem_of_fmap_2. }
  destruct (gather _) as [l|e'] eqn:Hg.
  - apply gather_Return in Hg. rewrite Hg in He.
    by apply list_elem_of_fmap in He as (? & [=] & _).
  - apply gather_Raise in Hg.
    rewrite as_completed_perm in Hg, He.
    f_equal. by eapply workers_raise_alike.
Qed.

(** A returned buffer holds the fragment of each entry, whole. *)
Lemma scrape_paths_contains sched code_buffer file_paths path fragment code w :
  path ∈ file_paths →
  worker_result env self path = Return fragment →
  fst (scrape_paths env self sched code_buffer file_paths w) = Return code →
  ∃ front back, code = code_buffer +:+ front +:+ fragment +:+ back.
Proof.
  intros Hin Hres. rewrite scrape_paths_run.
  destruct (gather _) as [l|e'] eqn:Hg; [|done]. intros [= <-].
  apply gather_Return in Hg.
  assert (Return fragment ∈ Return <$> l) as Hfr.
  { rewrite <- Hg, as_completed_perm, <- Hres. by apply list_elem_of_fmap_2. }
  apply list_elem_of_fmap in Hfr as (fragment' & [= <-] & Hfr).
  apply list_elem_of_split in Hfr as (l1 & l2 & ->).
  exists (joined l1), (joined l2). by rewrite joined_app.
Qed.

(** An entry whose call returns the empty string could as well be absent. *)
Lemma scrape_paths_skip_empty sched code_buffer before path after w :
  worker_result env self path = Return EmptyString →
  ∃ sched',
    fst (scrape_paths env self sched code_buffer (before ++ path :: after) w)
    = fst (scrape_paths env self sched' code_buffer (before ++ after) w).
Proof.
  intros Hres.
  pose proof (as_completed_perm sched
                (worker_result env self <$> before ++ path :: after)) as Hperm.
  assert (Return EmptyString
          ∈ as_completed sched (worker_result env self <$> before ++ path :: after))
    as (d1 & d2 & Horder)%list_elem_of_split.
  { rewrite Hperm, fmap_app, fmap_cons, Hres. apply elem_of_app. right. left. }
  rewrite Horder in Hperm.
  destruct (as_completed_complete (worker_result env self <$> before ++ after)
              (d1 ++ d2)) as [sched' Hsched'].
  { apply (Permutation_cons_inv (a := Return EmptyString)).
    rewrite Permutation_middle, Hperm, !fmap_app, fmap_cons, Hres.
    symmetry. apply Permutation_middle. }
  exists sched'. rewrite !scrape_paths_run.
  rewrite Hsched', Horder, !gather_app. cbn [gather].
  destruct (gather d1) as [l1|]; [|done]. destruct (gather d2) as [l2|]; [|done].
  by rewrite !joined_app.
Qed.

End Contribution.

(** ** The archive steps and the module-level run *)

Section Frames.

Context (env : Env).

Lemma frames_ret {A} (a : A) : frames (ret a).
Proof. by intros w. Qed.

Lemma frames_raise {A} e : frames (@raise A e).
Proof. by intros w. Qed.

Lemma frames_bind {A B} (m : M A) (k : A → M B) :
  frames m → (∀ a, frames (k a)) → frames (bind m k).
Proof.
  intros Hm Hk w. unfold bind. specialize (Hm w).
  destruct (m w) as [[a|e] w1]; simpl in *; [|done].
  destruct (Hk a w1) as [-> ->]. done.
Qed.

Lemma frames_requests_get url : frames (requests_get env url).
Proof. intros w. unfold requests_get. by destruct (http_get env url). Qed.

Lemma frames_raise_for_status response : frames (raise_for_status env response).
Proof. unfold raise_for_status. destruct (http_error_status _); by intros w. Qed.

Lemma frames_make_request self url : frames (_make_request env self url).
Proof.
  apply frames_bind; [apply frames_requests_get|]. intros response.
  apply frames_bind; [apply frames_raise_for_status|]. intros _. apply frames_ret.
Qed.

Lemma frames_get_archive_url self : frames (get_archive_url env self).
Proof.
  apply frames_bind; [apply frames_make_request|]. intros response.
  destruct (status_code response =? 302)%Z; [|apply frames_ret].
  apply frames_bind; [|intros; apply frames_ret].
  unfold getitem. destruct (_ !! _) as [[key value]|]; by intros w.
Qed.

Lemma frames_get_all_file_paths self : frames (get_all_file_paths env self).
Proof.
  apply frames_bind; [apply frames_get_archive_url|]. intros url.
  apply frames_bind; [apply frames_make_request|]. intros response.
  unfold zip_filenames. destruct (zip_infolist _ _); by intros w.
Qed.

Lemma make_request_unfold self url w :
  _make_request env self url w =
  match http_get env url with
  | Failed msg => (Raise (Exn RequestException msg), log_request url w)
  | Responded response =>
      if http_error_status (status_code response)
      then (Raise (Exn HTTPError (http_error_msg env response)), log_request url w)
      else (Return response, log_request url w)
  end.
Proof.
  unfold _make_request, requests_get, raise_for_status. run.
  destruct (http_get env url) as [response|msg]; [|done].
  by destruct (http_error_status _).
Qed.

Lemma get_archive_url_unfold self w :
  get_archive_url env self w =
  match _make_request env self (zipball_url self) w with
  | (Raise e, w1) => (Raise e, w1)
  | (Return response, w1) =>
      if (status_code response =? 302)%Z then
        match _store (headers response) !! "location" with
        | Some (_, redirect_url) => (Return redirect_url, w1)
        | None => (Raise (Exn KeyError (SQ +:+ "location" +:+ SQ)), w1)
        end
      else (Return (zipball_url self), w1)
  end.
Proof.
  unfold get_archive_url, getitem. run.
  destruct (_make_request env self (zipball_url self) w) as [[response|e] w1]; [|done].
  destruct (status_code response =? 302)%Z; [|done].
  change (Py.lower "Location") with "location".
  by destruct (_store (headers response) !! "location") as [[key value]|].
Qed.

Lemma get_all_file_paths_unfold self w :
  get_all_file_paths env self w =
  match get_archive_url env self w with
  | (Raise e, w1) => (Raise e, w1)
  | (Return archive_url, w1) =>
      match _make_request env self archive_url w1 with
      | (Raise e, w2) => (Raise e, w2)
      | (Return response, w2) =>
          match zip_infolist env (content response) with
          | inr names => (Return names, w2)
          | inl msg => (Raise (Exn BadZipFile msg), w2)
          end
      end
  end.
Proof.
  unfold get_all_file_paths, zip_filenames. run.
  destruct (get_archive_url env self w) as [[archive_url|e] w1]; [|done].
  destruct (_make_request env self archive_url w1) as [[response|e] w2]; [|done].
  by destruct (zip_infolist env (content response)).
Qed.

Lemma main_unfold sched w :
  main env sched w =
  match get_all_file_paths env example_git w with
  | (Raise e, w1) => print ("An error occurred: " +:+ exn_str e) w1
  | (Return file_paths, w1) =>
      match scrape_paths env example_git sched EmptyString file_paths w1 with
      | (Raise e, w2) => print ("An error occurred: " +:+ exn_str e) w2
      | (Return code, w2) =>
          write_file "scraped.txt" code
            (snd (print ("Scraping took " +:+ elapsed env +:+ "s") w2))
      end
  end.
Proof.
  unfold main, scrape_code. run. fold example_git.
  change (__init__ "Shell1010" "Selfcord" None) with example_git.
  destruct (get_all_file_paths env example_git w) as [[file_paths|e] w1]; [|done].
  by destruct (scrape_paths env example_git sched EmptyString file_paths w1)
    as [[code|e] w2].
Qed.

(** A run whose archive steps raise: the error is printed, nothing is
    written. *)
Lemma main_archive_failure sched w e :
  fst (get_all_file_paths env example_git w) = Raise e →
  fst (main env sched w) = Return ()
  ∧ stdout (snd (main env sched w)) = stdout w ++ ["An error occurred: " +:+ exn_str e]
  ∧ files (snd (main env sched w)) = files w.
Proof.
  intros Hraise. rewrite main_unfold.
  destruct (frames_get_all_file_paths example_git w) as [Hout Hfiles].
  destruct (get_all_file_paths env example_git w) as [[file_paths|e'] w1];
    simpl in *; [done|].
  injection Hraise as ->. by rewrite Hout, Hfiles.
Qed.

(** A run whose fan-in raises: the error is printed, nothing is written. *)
Lemma main_scrape_failure sched w file_paths w1 e :
  get_all_file_paths env example_git w = (Return file_paths, w1) →
  fst (scrape_paths env example_git sched EmptyString file_paths w1) = Raise e →
  fst (main env sched w) = Return ()
  ∧ stdout (snd (main env sched w)) = stdout w ++ ["An error occurred: " +:+ exn_str e]
  ∧ files (snd (main env sched w)) = files w.
Proof.
  intros Hpaths Hraise. rewrite main_unfold.
  destruct (frames_get_all_file_paths example_git w) as [Hout Hfiles].
  rewrite Hpaths in *.
  destruct (scrape_paths_frame env example_git sched EmptyString file_paths w1)
    as [Hout' Hfiles'].
  destruct (scrape_paths env example_git sched EmptyString file_paths w1)
    as [[code|e'] w2]; simpl in *; [done|].
  injection Hraise as ->. split; [done|]. split; congruence.
Qed.

(** A run whose fan-in returns: the time is printed, the buffer written. *)
Lemma main_success sched w file_paths w1 code :
  get_all_file_paths env example_git w = (Return file_paths, w1) →
  fst (scrape_paths env example_git sched EmptyString file_paths w1) = Return code →
  fst (main env sched w) = Return ()
  ∧ stdout (snd (main env sched w))
    = stdout w ++ ["Scraping took " +:+ elapsed env +:+ "s"]
  ∧ files (snd (main env sched w)) = <["scraped.txt" := code]> (files w).
Proof.
  intros Hpaths Hcode. rewrite main_unfold.
  destruct (frames_get_all_file_paths example_git w) as [Hout Hfiles].
  rewrite Hpaths in *.
  destruct (scrape_paths_frame env example_git sched EmptyString file_paths w1)
    as [Hout' Hfiles'].
  destruct (scrape_paths env example_git sched EmptyString file_paths w1)
    as [[code'|e'] w2]; simpl in *; [|done].
  injection Hcode as ->. split; [done|]. split; congruence.
Qed.

End Frames.

(** ** Claims about one entry path *)

Lemma any_endswith_false file_name (exts : list string) :
  Py.any (λ ext, Py.endswith file_name ext) exts = false
  ↔ ∀ ext front, ext ∈ exts → file_name ≠ front +:+ ext.
Proof.
  unfold Py.any. induction exts as [|ext exts IH]; simpl.
  - split; [|done]. by intros _ ?? ?%elem_of_nil.
  - rewrite orb_false_iff, IH. split.
    + intros [Hext Hexts] ext' front Hin Heq.
      apply elem_of_cons in Hin as [->|Hin]; [|by eapply Hexts].
      rewrite (proj2 (endswith_spec file_name ext)) in Hext by eauto. done.
    + intros Hall. split.
      * destruct (Py.endswith file_name ext) eqn:Hends; [|done].
        apply endswith_spec in Hends as [front ->].
        by destruct (Hall ext front); [left|].
      * intros ext' front Hin. apply Hall. by right.
Qed.

(** C2. An entry whose file name ends with none of the allowed extensions
    yields the empty string, and the world is left as it was: in particular
    no URL is requested. *)
Theorem scrape_file_skips_other_extensions env self path file_name w :
  last (tail (Py.split "/" path)) = Some file_name →
  Py.any (λ ext, Py.endswith file_name ext) (allowed_extensions self) = false →
  _scrape_code_for_file env self path w = (Return EmptyString, w)
  ∧ requested (snd (_scrape_code_for_file env self path w)) = requested w.
Proof.
  intros Hname Hany. rewrite scrape_file_unfold, Hname, Hany. done.
Qed.

Lemma scrape_file_skips_other_extensions_witness :
  (last (tail (Py.split "/" "repo-abc123/src/main.go")) = Some "main.go"
   ∧ Py.any (λ ext, Py.endswith "main.go" ext) (allowed_extensions example_git) = false)
  ∧ _scrape_code_for_file example_env example_git "repo-abc123/src/main.go" initial_world
    = (Return EmptyString, initial_world).
Proof.
  split; [split; reflexivity|].
  apply (scrape_file_skips_other_extensions example_env example_git
           "repo-abc123/src/main.go" "main.go" initial_world); reflexivity.
Defined.

(** *** Lines of a fragment *)

Lemma split_lines sep before after :
  Py.split sep (before +:+ String sep after) = Py.split sep before ++ Py.split sep after.
Proof.
  induction before as [|c before IH]; simpl.
  - by rewrite Ascii.eqb_refl.
  - destruct (Ascii.eqb c sep); [by rewrite IH|].
    rewrite IH. pose proof (split_not_nil sep before).
    by destruct (Py.split sep before).
Qed.

Lemma count_app c s1 s2 : Py.count c (s1 +:+ s2) = Py.count c s1 + Py.count c s2.
Proof.
  induction s1 as [|c' s1 IH]; [done|].
  rewrite string_app_cons_eq. simpl. rewrite IH. lia.
Qed.

Lemma count_join_last c sep pieces piece :
  last pieces = Some piece → Py.count c piece ≤ Py.count c (Py.join sep pieces).
Proof.
  induction pieces as [|first [|second pieces] IH]; [done|..].
  - by intros [= ->].
  - intros Hlast. cbn [Py.join]. rewrite !count_app.
    specialize (IH Hlast). cbn [Py.join] in IH. lia.
Qed.

Lemma count_lines_app test lines1 lines2 :
  count_lines test (lines1 ++ lines2) = count_lines test lines1 + count_lines test lines2.
Proof. induction lines1 as [|line lines1 IH]; simpl; [done|]. rewrite IH. lia. Qed.

Lemma string_app_inj_tail s1 s2 t1 t2 :
  String.length s2 = String.length t2 → s1 +:+ s2 = t1 +:+ t2 → s2 = t2.
Proof.
  revert t1. induction s1 as [|c s1 IH]; intros [|d t1] Hlen Heq.
  - done.
  - change (s2 = String d (t1 +:+ t2)) in Heq. subst s2.
    simpl in Hlen. rewrite string_app_length in Hlen. lia.
  - change (String c (s1 +:+ s2) = t2) in Heq. subst t2.
    simpl in Hlen. rewrite string_app_length in Hlen. lia.
  - rewrite !string_app_cons_eq in Heq. injection Heq as _ Heq. by eapply IH.
Qed.

(** Two texts whose last characters differ: neither line ends with the
    other's text. *)
Lemma endswith_other_tail s front suffix front' tail tail' :
  s = front +:+ tail →
  suffix = front' +:+ tail' →
  String.length tail = String.length tail' →
  tail ≠ tail' →
  Py.endswith s suffix = false.
Proof.
  intros -> -> Hlen Hne.
  destruct (Py.endswith _ _) eqn:Hends; [|done].
  apply endswith_spec in Hends as [rest Hrest].
  rewrite <- string_app_assoc in Hrest.
  by apply string_app_inj_tail in Hrest.
Qed.

Lemma start_line_markers name :
  is_start_marker (DQ +:+ name +:+ DQ +:+ " starts here") = true
  ∧ is_end_marker (DQ +:+ name +:+ DQ +:+ " starts here") = false.
Proof.
  split.
  - apply endswith_spec. exists (DQ +:+ name). by rewrite string_app_assoc.
  - apply (endswith_other_tail _ (DQ +:+ name +:+ DQ +:+ " star") _
             (DQ +:+ " en") "ts here" "ds here"); [|done..].
    by rewrite !string_app_assoc.
Qed.

Lemma end_line_markers name :
  is_end_marker (DQ +:+ name +:+ DQ +:+ " ends here") = true
  ∧ is_start_marker (DQ +:+ name +:+ DQ +:+ " ends here") = false.
Proof.
  split.
  - apply endswith_spec. exists (DQ +:+ name). by rewrite string_app_assoc.
  - apply (endswith_other_tail _ (DQ +:+ name +:+ DQ +:+ " en") _
             (DQ +:+ " star") "ds here" "ts here"); [|done..].
    by rewrite !string_app_assoc.
Qed.

(** The lines of a fragment: an empty line, the start line, the lines of
    the content, the end line, an empty line. *)
Lemma fragment_lines url content file_name :
  Py.count "010" url = 0 →
  Py.count "010" file_name = 0 →
  Py.split "010" (start_marker url +:+ content +:+ end_marker file_name)
  = [EmptyString; DQ +:+ url +:+ DQ +:+ " starts here"]
    ++ Py.split "010" content
    ++ [DQ +:+ file_name +:+ DQ +:+ " ends here"; EmptyString].
Proof.
  intros Hurl Hname.
  assert (start_marker url +:+ content +:+ end_marker file_name
          = EmptyString +:+ String "010"
              ((DQ +:+ url +:+ DQ +:+ " starts here") +:+ String "010"
                 (content +:+ String "010"
                    ((DQ +:+ file_name +:+ DQ +:+ " ends here")
                       +:+ String "010" EmptyString)))) as ->.
  { unfold start_marker, end_marker. by rewrite !string_app_assoc. }
  rewrite !split_lines.
  rewrite (split_no_sep "010" (DQ +:+ url +:+ DQ +:+ " starts here"))
    by (rewrite !count_app, Hurl; done).
  rewrite (split_no_sep "010" (DQ +:+ file_name +:+ DQ +:+ " ends here"))
    by (rewrite !count_app, Hname; done).
  done.
Qed.

Lemma fragment_markers url content file_name :
  Py.count "010" url = 0 →
  Py.count "010" file_name = 0 →
  start_markers (start_marker url +:+ content +:+ end_marker file_name)
  = 1 + start_markers content
  ∧ end_markers (start_marker url +:+ content +:+ end_marker file_name)
    = 1 + end_markers content.
Proof.
  intros Hurl Hname. unfold start_markers, end_markers.
  rewrite fragment_lines by done. rewrite !count_lines_app.
  destruct (start_line_markers url) as [Hs1 He1].
  destruct (end_line_markers file_name) as [He2 Hs2].
  cbn [count_lines]. rewrite Hs1, He1, He2, Hs2.
  change (is_start_marker EmptyString) with false.
  change (is_end_marker EmptyString) with false. cbv iota. lia.
Qed.

(** C3. An entry whose file name ends with an allowed extension
    and whose fetch succeeds with content [text response] yields exactly
    [LF "<url>" starts here LF <content> LF "<file name>" ends here LF], after
    one request to [url]; the file name is the one in the end marker.  When
    the URL holds no line feed, the lines of the fragment are an empty line,
    the start marker, the lines of the content, the end marker and an empty
    line: the fragment holds one start marker and one end marker more than
    the content does, so exactly one of each when no line of the content is
    itself a marker. *)
Theorem scrape_file_fragment_markers env self path file_name response w :
  last (tail (Py.split "/" path)) = Some file_name →
  Py.any (λ ext, Py.endswith file_name ext) (allowed_extensions self) = true →
  http_get env (raw_url self (tail (Py.split "/" path))) = Responded response →
  http_error_status (status_code response) = false →
  let url := raw_url self (tail (Py.split "/" path)) in
  let fragment :=
    LF +:+ DQ +:+ url +:+ DQ +:+ " starts here" +:+ LF
       +:+ text response
       +:+ LF +:+ DQ +:+ file_name +:+ DQ +:+ " ends here" +:+ LF in
  _scrape_code_for_file env self path w = (Return fragment, log_request url w)
  ∧ (Py.count "010" url = 0 →
     Py.split "010" fragment
     = [EmptyString; DQ +:+ url +:+ DQ +:+ " starts here"]
       ++ Py.split "010" (text response)
       ++ [DQ +:+ file_name +:+ DQ +:+ " ends here"; EmptyString]
     ∧ start_markers fragment = 1 + start_markers (text response)
     ∧ end_markers fragment = 1 + end_markers (text response)
     ∧ (start_markers (text response) = 0 → start_markers fragment = 1)
     ∧ (end_markers (text response) = 0 → end_markers fragment = 1)).
Proof.
  intros Hname Hany Hget Hok url fragment.
  assert (fragment = start_marker url +:+ text response +:+ end_marker file_name)
    as Hfragment.
  { unfold fragment, start_marker, end_marker. by rewrite !string_app_assoc. }
  split.
  - rewrite scrape_file_unfold, Hname, Hany. cbn zeta.
    by rewrite Hget, Hok, Hfragment.
  - intros Hurl.
    assert (Py.count "010" file_name = 0) as Hfile.
    { pose proof (count_join_last "010" "/" _ _ Hname) as Hle.
      unfold url, raw_url in Hurl. rewrite !count_app in Hurl. lia. }
    rewrite Hfragment.
    destruct (fragment_markers url (text response) file_name Hurl Hfile) as [Hs He].
    split; [by apply fragment_lines|]. split; [done|]. split; [done|].
    split; intros Hnone; [rewrite Hs|rewrite He]; by rewrite Hnone.
Qed.

Lemma scrape_file_fragment_markers_witness :
  fst (_scrape_code_for_file example_env example_git "Selfcord-abc123/README.md" initial_world)
  = Return (LF +:+ DQ +:+ "https://raw.githubusercontent.com/Shell1010/Selfcord/main/README.md"
               +:+ DQ +:+ " starts here" +:+ LF +:+ "hello"
               +:+ LF +:+ DQ +:+ "README.md" +:+ DQ +:+ " ends here" +:+ LF)
  ∧ start_markers
      (LF +:+ DQ +:+ "https://raw.githubusercontent.com/Shell1010/Selfcord/main/README.md"
          +:+ DQ +:+ " starts here" +:+ LF +:+ "hello"
          +:+ LF +:+ DQ +:+ "README.md" +:+ DQ +:+ " ends here" +:+ LF) = 1.
Proof.
  destruct (scrape_file_fragment_markers example_env example_git
              "Selfcord-abc123/README.md" "README.md" (example_response 200 "hello")
              initial_world eq_refl eq_refl eq_refl eq_refl) as [Hcall Hlines].
  split; [exact (f_equal fst Hcall)|].
  destruct (Hlines eq_refl) as (_ & _ & _ & Hone & _).
  exact (Hone eq_refl).
Defined.

(** Without the condition on the content the count of one fails: a fetched
    text that quotes marker lines gives a fragment with two start markers
    and two end markers. *)
Lemma scrape_file_one_marker_counterexample :
  ¬ (∀ env self path file_name response w fragment,
       last (tail (Py.split "/" path)) = Some file_name →
       Py.any (λ ext, Py.endswith file_name ext) (allowed_extensions self) = true →
       http_get env (raw_url self (tail (Py.split "/" path))) = Responded response →
       http_error_status (status_code response) = false →
       fst (_scrape_code_for_file env self path w) = Return fragment →
       start_markers fragment = 1 ∧ end_markers fragment = 1).
Proof.
  intros Hclaim.
  destruct (Hclaim quoting_env example_git "Selfcord-abc123/README.md" "README.md"
              (example_response 200 quoted_markers) initial_world
              (start_marker "https://raw.githubusercontent.com/Shell1010/Selfcord/main/README.md"
                 +:+ quoted_markers +:+ end_marker "README.md")
              eq_refl eq_refl eq_refl eq_refl eq_refl) as [Hstart _].
  vm_compute in Hstart. discriminate Hstart.
Qed.

(** C9. A directory entry (a path ending with the separator) yields the
    empty string without any request, as long as no allowed extension is
    the empty string: its file name is empty. *)
Theorem scrape_file_directory_entry env self path w :
  Py.endswith path "/" = true →
  Forall (λ ext, ext ≠ EmptyString) (allowed_extensions self) →
  last (tail (Py.split "/" path)) = Some EmptyString
  ∧ Py.any (λ ext, Py.endswith EmptyString ext) (allowed_extensions self) = false
  ∧ _scrape_code_for_file env self path w = (Return EmptyString, w)
  ∧ requested (snd (_scrape_code_for_file env self path w)) = requested w.
Proof.
  intros [dir ->]%endswith_spec Hexts.
  assert (last (tail (Py.split "/" (dir +:+ "/"))) = Some EmptyString) as Hname.
  { change (dir +:+ "/") with (dir +:+ String "/"%char EmptyString).
    rewrite (split_app_sep "/" dir).
    pose proof (split_not_nil "/" dir).
    destruct (Py.split "/" dir) as [|top parts]; [done|].
    cbn [app tail]. apply last_snoc. }
  assert (Py.any (λ ext, Py.endswith EmptyString ext) (allowed_extensions self) = false)
    as Hany.
  { apply any_false. eapply Forall_impl; [exact Hexts|].
    intros ext Hext. by apply endswith_empty. }
  split; [done|]. split; [done|].
  rewrite scrape_file_unfold, Hname, Hany. done.
Qed.

Lemma scrape_file_directory_entry_witness :
  _scrape_code_for_file example_env example_git "Selfcord-abc123/docs/" initial_world
  = (Return EmptyString, initial_world).
Proof.
  refine (proj1 (proj2 (proj2
    (scrape_file_directory_entry example_env example_git "Selfcord-abc123/docs/"
       initial_world eq_refl _)))).
  repeat constructor; discriminate.
Defined.

Lemma scrape_file_fetched env self path file_name response w :
  last (tail (Py.split "/" path)) = Some file_name →
  Py.any (λ ext, Py.endswith file_name ext) (allowed_extensions self) = true →
  http_get env (raw_url self (tail (Py.split "/" path))) = Responded response →
  http_error_status (status_code response) = false →
  _scrape_code_for_file env self path w
  = (Return (start_marker (raw_url self (tail (Py.split "/" path)))
               +:+ text response +:+ end_marker file_name),
     log_request (raw_url self (tail (Py.split "/" path))) w).
Proof.
  intros Hname Hany Hget Hok.
  rewrite scrape_file_unfold, Hname, Hany. cbn zeta. by rewrite Hget, Hok.
Qed.

Lemma scrape_file_failed env self path file_name w :
  last (tail (Py.split "/" path)) = Some file_name →
  Py.any (λ ext, Py.endswith file_name ext) (allowed_extensions self) = true →
  fetch_fails env (raw_url self (tail (Py.split "/" path))) = true →
  _scrape_code_for_file env self path w
  = (Return EmptyString, log_request (raw_url self (tail (Py.split "/" path))) w).
Proof.
  intros Hname Hany Hfail.
  rewrite scrape_file_unfold, Hname, Hany. cbn zeta.
  unfold fetch_fails in Hfail.
  destruct (http_get env _) as [response|msg]; [|done]. by rewrite Hfail.
Qed.


(** C4. When the fetch of an eligible entry fails (no response, or a 4xx/5xx
    status), the call returns the empty string instead of raising; a run
    over a list holding the entry gives what some run over the list without
    it gives; the fan-in returns a buffer whenever the other entries have a
    file name; and the whole run then ends normally, printing the elapsed
    time and writing a buffer that a run without the entry produces. *)
Theorem scrape_file_fetch_failure env self path file_name w :
  last (tail (Py.split "/" path)) = Some file_name →
  Py.any (λ ext, Py.endswith file_name ext) (allowed_extensions self) = true →
  fetch_fails env (raw_url self (tail (Py.split "/" path))) = true →
  _scrape_code_for_file env self path w
  = (Return EmptyString, log_request (raw_url self (tail (Py.split "/" path))) w)
  ∧ (∀ sched code_buffer before after, ∃ sched',
       fst (scrape_paths env self sched code_buffer (before ++ path :: after) w)
       = fst (scrape_paths env self sched' code_buffer (before ++ after) w))
  ∧ (∀ sched code_buffer before after,
       Forall (λ other, Py.count "/" other ≠ 0) (before ++ after) →
       ∃ code,
         fst (scrape_paths env self sched code_buffer (before ++ path :: after) w)
         = Return code)
  ∧ (∀ sched before after w1,
       self = example_git →
       get_all_file_paths env example_git w = (Return (before ++ path :: after), w1) →
       Forall (λ other, Py.count "/" other ≠ 0) (before ++ after) →
       ∃ code sched',
         fst (scrape_paths env example_git sched' EmptyString (before ++ after) w1)
         = Return code
         ∧ fst (main env sched w) = Return ()
         ∧ stdout (snd (main env sched w))
           = stdout w ++ ["Scraping took " +:+ elapsed env +:+ "s"]
         ∧ files (snd (main env sched w)) = <["scraped.txt" := code]> (files w)).
Proof.
  intros Hname Hany Hfail.
  pose proof (scrape_file_failed env self path file_name w Hname Hany Hfail) as Hcall.
  assert (worker_result env self path = Return EmptyString) as Hres
    by (by rewrite <- (scrape_file_result env self path w), Hcall).
  assert (∀ sched code_buffer before after w',
            Forall (λ other, Py.count "/" other ≠ 0) (before ++ after) →
            ∃ code,
              fst (scrape_paths env self sched code_buffer (before ++ path :: after) w')
              = Return code) as Hreturns.
  { intros sched code_buffer before after w' Hothers.
    apply scrape_paths_returns.
    apply Forall_app in Hothers as [Hbefore Hafter].
    apply Forall_app. split; [|constructor; [by eexists|]];
      (eapply Forall_impl; [eassumption|]); intros other;
      apply worker_result_returns. }
  split; [done|]. split; [|split].
  - intros sched code_buffer before after. by apply scrape_paths_skip_empty.
  - intros sched code_buffer before after. apply Hreturns.
  - intros sched before after w1 -> Hpaths Hothers.
    destruct (Hreturns sched EmptyString before after w1 Hothers) as [code Hcode].
    destruct (scrape_paths_skip_empty env example_git sched EmptyString
                before path after w1 Hres) as [sched' Hsame].
    exists code, sched'. split; [by rewrite <- Hsame|].
    exact (main_success env sched w _ w1 code Hpaths Hcode).
Qed.

Lemma scrape_file_fetch_failure_witness :
  fetch_fails example_env
    (raw_url example_git (tail (Py.split "/" "Selfcord-abc123/docs/gone.md"))) = true
  ∧ fst (_scrape_code_for_file example_env example_git "Selfcord-abc123/docs/gone.md"
           initial_world) = Return EmptyString
  ∧ stdout (snd (main example_env [] initial_world)) = ["Scraping took 0.123s"].
Proof.
  destruct (scrape_file_fetch_failure example_env example_git
              "Selfcord-abc123/docs/gone.md" "gone.md" initial_world
              eq_refl eq_refl eq_refl) as (Hcall & _ & _ & Hrun).
  split; [reflexivity|]. split; [by rewrite Hcall|].
  destruct (Hrun []
              ["Selfcord-abc123/"; "Selfcord-abc123/README.md"; "Selfcord-abc123/docs/";
               "Selfcord-abc123/docs/empty.md"]
              ["Selfcord-abc123/src/main.go"]
              (log_request "https://api.github.com/repos/Shell1010/Selfcord/zipball/main"
                 (log_request "https://api.github.com/repos/Shell1010/Selfcord/zipball/main"
                    initial_world))
              eq_refl eq_refl)
    as (code & sched' & _ & _ & Hout & _).
  - repeat constructor; by vm_compute.
  - exact Hout.
Defined.

(** C10. An eligible entry fetched with empty content still yields a
    fragment: the start marker line, an empty content line and the end
    marker line.  The fragment is not the empty string, and every buffer
    returned by a run over a list holding the entry contains it whole. *)
Theorem scrape_file_empty_content env self path file_name response w :
  last (tail (Py.split "/" path)) = Some file_name →
  Py.any (λ ext, Py.endswith file_name ext) (allowed_extensions self) = true →
  http_get env (raw_url self (tail (Py.split "/" path))) = Responded response →
  http_error_status (status_code response) = false →
  text response = EmptyString →
  let url := raw_url self (tail (Py.split "/" path)) in
  let fragment :=
    LF +:+ (DQ +:+ url +:+ DQ +:+ " starts here") +:+ LF
       +:+ EmptyString +:+ LF
       +:+ (DQ +:+ file_name +:+ DQ +:+ " ends here") +:+ LF in
  fst (_scrape_code_for_file env self path w) = Return fragment
  ∧ fragment ≠ EmptyString
  ∧ (∀ sched code_buffer file_paths code,
       path ∈ file_paths →
       fst (scrape_paths env self sched code_buffer file_paths w) = Return code →
       ∃ front back, code = code_buffer +:+ front +:+ fragment +:+ back).
Proof.
  intros Hname Hany Hget Hok Hempty url fragment.
  pose proof (scrape_file_fetched env self path file_name response w
                Hname Hany Hget Hok) as Hcall.
  assert (start_marker url +:+ text response +:+ end_marker file_name = fragment)
    as Hfragment.
  { unfold fragment, start_marker, end_marker. by rewrite Hempty, !string_app_assoc. }
  fold url in Hcall. rewrite Hfragment in Hcall.
  split; [by rewrite Hcall|]. split; [done|].
  intros sched code_buffer file_paths code Hin Hcode.
  eapply scrape_paths_contains; [done| |done].
  by rewrite <- (scrape_file_result env self path w), Hcall.
Qed.

Lemma scrape_file_empty_content_witness :
  fst (_scrape_code_for_file example_env example_git "Selfcord-abc123/docs/empty.md"
         initial_world)
  ≠ Return EmptyString.
Proof.
  destruct (scrape_file_empty_content example_env example_git
              "Selfcord-abc123/docs/empty.md" "empty.md"
              (example_response 200 EmptyString) initial_world
              eq_refl eq_refl eq_refl eq_refl eq_refl) as (-> & _ & _).
  discriminate.
Defined.

(** ** Claims about the archive steps and the whole run *)

(** C5. If locating the archive, downloading it or reading it as a zip
    container raises, the run prints the stringified error and ends without
    touching the file system: no output file is written. *)
Theorem main_aborts_on_archive_failure env sched w e :
  (fst (get_archive_url env example_git w) = Raise e
   ∨ (∃ archive_url w1,
        get_archive_url env example_git w = (Return archive_url, w1)
        ∧ fst (_make_request env example_git archive_url w1) = Raise e)
   ∨ (∃ archive_url w1 response w2 msg,
        get_archive_url env example_git w = (Return archive_url, w1)
        ∧ _make_request env example_git archive_url w1 = (Return response, w2)
        ∧ zip_infolist env (content response) = inl msg
        ∧ e = Exn BadZipFile msg)) →
  fst (main env sched w) = Return ()
  ∧ stdout (snd (main env sched w)) = stdout w ++ ["An error occurred: " +:+ exn_str e]
  ∧ files (snd (main env sched w)) = files w
  ∧ files (snd (main env sched w)) !! "scraped.txt" = files w !! "scraped.txt".
Proof.
  intros Hfail.
  assert (fst (get_all_file_paths env example_git w) = Raise e) as Hraise.
  { rewrite get_all_file_paths_unfold.
    destruct Hfail as [Hlocate|[(archive_url & w1 & -> & Hload)
                               |(archive_url & w1 & response & w2 & msg
                                 & -> & -> & -> & ->)]]; [| |done].
    - destruct (get_archive_url env example_git w) as [[archive_url|e'] w1];
        simpl in *; congruence.
    - destruct (_make_request env example_git archive_url w1)
        as [[response|e'] w2]; simpl in *; congruence. }
  destruct (main_archive_failure env sched w e Hraise) as (Hret & Hout & Hfiles).
  by rewrite Hfiles.
Qed.

Lemma main_aborts_on_archive_failure_witness :
  fst (get_archive_url missing_env example_git initial_world)
  = Raise (Exn HTTPError "404 Client Error: Not Found")
  ∧ stdout (snd (main missing_env [] initial_world))
    = ["An error occurred: 404 Client Error: Not Found"]
  ∧ files (snd (main missing_env [] initial_world)) = ∅.
Proof.
  split; [reflexivity|].
  destruct (main_aborts_on_archive_failure missing_env [] initial_world
              (Exn HTTPError "404 Client Error: Not Found") (or_introl eq_refl))
    as (_ & Hout & Hfiles & _).
  split; [exact Hout|exact Hfiles].
Defined.

(** The header lookup ignores how the name was spelled. *)
Lemma ci_setitem_lookup name value key d :
  Py.lower name = Py.lower key →
  _store (ci_setitem name value d) !! Py.lower key = Some (name, value).
Proof. intros <-. apply lookup_insert_eq. Qed.

Example location_header_any_case :
  _store (ci_of_list [("LOCATION", "a")]) !! Py.lower "Location" = Some ("LOCATION", "a")
  ∧ _store (ci_of_list [("location", "b")]) !! Py.lower "Location" = Some ("location", "b")
  ∧ _store (ci_of_list [("Content-Type", "c")]) !! Py.lower "Location" = None.
Proof. repeat split; reflexivity. Qed.

(** C6. [get_archive_url] sends one GET, to the zipball endpoint
    of branch main.  A 4xx or 5xx status raises at once; a 302 status
    returns the value of the Location header, whatever the case its name
    was spelled in; every other status, the non-2xx ones outside 4xx/5xx
    included, returns the endpoint URL itself. *)
Theorem get_archive_url_by_status env self w :
  let url := "https://api.github.com/repos/" +:+ owner self +:+ "/" +:+ repo self
               +:+ "/zipball/main" in
  requested (snd (get_archive_url env self w)) = requested w ++ [url]
  ∧ (∀ response,
       http_get env url = Responded response →
       (400 ≤ status_code response < 600)%Z →
       fst (get_archive_url env self w)
       = Raise (Exn HTTPError (http_error_msg env response)))
  ∧ (∀ response name redirect_url,
       http_get env url = Responded response →
       status_code response = 302%Z →
       _store (headers response) !! "location" = Some (name, redirect_url) →
       fst (get_archive_url env self w) = Return redirect_url)
  ∧ (∀ response,
       http_get env url = Responded response →
       ¬ (400 ≤ status_code response < 600)%Z →
       status_code response ≠ 302%Z →
       fst (get_archive_url env self w) = Return url).
Proof.
  intros url.
  assert (zipball_url self = url) as Hurl by done.
  rewrite get_archive_url_unfold, make_request_unfold, Hurl.
  split; [|split; [|split]].
  - destruct (http_get env url) as [response|msg]; [|done].
    destruct (http_error_status _); [done|].
    destruct (status_code response =? 302)%Z; [|done].
    by destruct (_store (headers response) !! "location") as [[key value]|].
  - intros response -> Hstatus.
    assert (http_error_status (status_code response) = true) as ->; [|done].
    unfold http_error_status. lia.
  - intros response name redirect_url -> Hstatus Hlocation.
    rewrite Hstatus. change (http_error_status 302) with false. cbv iota.
    by rewrite Hstatus, Z.eqb_refl, Hlocation.
  - intros response -> Hok Hstatus.
    assert (http_error_status (status_code response) = false) as ->.
    { unfold http_error_status. lia. }
    by apply Z.eqb_neq in Hstatus as ->.
Qed.

Lemma get_archive_url_by_status_witness :
  fst (get_archive_url redirect_env example_git initial_world)
  = Return "https://codeload.github.com/x.zip"
  ∧ fst (get_archive_url lowercase_redirect_env example_git initial_world)
    = Return "https://codeload.github.com/x.zip"
  ∧ fst (get_archive_url not_modified_env example_git initial_world)
    = Return "https://api.github.com/repos/Shell1010/Selfcord/zipball/main"
  ∧ fst (get_archive_url missing_env example_git initial_world)
    = Raise (Exn HTTPError "404 Client Error: Not Found").
Proof.
  split; [|split; [|split]].
  - exact (proj1 (proj2 (proj2
      (get_archive_url_by_status redirect_env example_git initial_world)))
      (redirect_response "https://codeload.github.com/x.zip") "Location" _
      eq_refl eq_refl eq_refl).
  - exact (proj1 (proj2 (proj2
      (get_archive_url_by_status lowercase_redirect_env example_git initial_world)))
      _ "location" _ eq_refl eq_refl eq_refl).
  - refine (proj2 (proj2 (proj2
      (get_archive_url_by_status not_modified_env example_git initial_world)))
      (example_response 304 EmptyString) eq_refl _ _).
    + simpl. lia.
    + discriminate.
  - refine (proj1 (proj2
      (get_archive_url_by_status missing_env example_git initial_world))
      (example_response 404 "Not Found") eq_refl _).
    simpl. lia.
Defined.

(** A status that is neither a success nor the redirect need not raise: at
    304 the endpoint URL is returned. *)
Lemma get_archive_url_non_success_counterexample :
  ¬ (∀ env self w response,
       http_get env (zipball_url self) = Responded response →
       ¬ (200 ≤ status_code response < 300)%Z →
       status_code response ≠ 302%Z →
       ∃ e, fst (get_archive_url env self w) = Raise e).
Proof.
  intros Hclaim.
  destruct (Hclaim not_modified_env example_git initial_world
              (example_response 304 EmptyString) eq_refl) as [e He].
  - simpl. lia.
  - discriminate.
  - vm_compute in He. discriminate He.
Qed.

(** A 302 response that carries no Location header makes the lookup raise. *)
Lemma get_archive_url_no_location env self response w :
  http_get env (zipball_url self) = Responded response →
  status_code response = 302%Z →
  _store (headers response) !! "location" = None →
  fst (get_archive_url env self w) = Raise (Exn KeyError (SQ +:+ "location" +:+ SQ)).
Proof.
  intros Hget Hstatus Hlocation.
  rewrite get_archive_url_unfold, make_request_unfold, Hget, Hstatus.
  change (http_error_status 302) with false. cbv iota.
  by rewrite Hstatus, Z.eqb_refl, Hlocation.
Qed.

(** C8. An entry path without a separator makes the call raise IndexError
    at the last-segment lookup; the handler of the call catches request
    exceptions only, so the exception leaves the call, leaves the fan-in of
    every run whose entry list holds the path, and ends the whole run: the
    error is printed and no file is written. *)
Theorem scrape_file_no_separator env self path w :
  Py.count "/" path = 0 →
  _scrape_code_for_file env self path w = (Raise IndexError_out_of_range, w)
  ∧ exn_cls IndexError_out_of_range = IndexError
  ∧ is_RequestException IndexError_out_of_range = false
  ∧ (∀ sched code_buffer file_paths,
       path ∈ file_paths →
       fst (scrape_paths env self sched code_buffer file_paths w)
       = Raise IndexError_out_of_range)
  ∧ (∀ sched file_paths w1,
       get_all_file_paths env example_git w = (Return file_paths, w1) →
       path ∈ file_paths →
       fst (scrape_code env example_git sched w) = Raise IndexError_out_of_range
       ∧ stdout (snd (main env sched w))
         = stdout w ++ ["An error occurred: list index out of range"]
       ∧ files (snd (main env sched w)) = files w).
Proof.
  intros Hcount. pose proof (file_name_None path Hcount) as Hname.
  assert (∀ git, worker_result env git path = Raise IndexError_out_of_range) as Hres.
  { intros git. by rewrite worker_result_unfold, Hname. }
  split; [by rewrite scrape_file_unfold, Hname|].
  split; [done|]. split; [done|]. split.
  - intros sched code_buffer file_paths Hin. by eapply scrape_paths_raises.
  - intros sched file_paths w1 Hpaths Hin.
    assert (fst (scrape_paths env example_git sched EmptyString file_paths w1)
            = Raise IndexError_out_of_range) as Hraise
      by (by eapply scrape_paths_raises).
    split.
    + unfold scrape_code. run. by rewrite Hpaths.
    + by destruct (main_scrape_failure env sched w file_paths w1 _ Hpaths Hraise)
        as (_ & ? & ?).
Qed.

Lemma scrape_file_no_separator_witness :
  Py.count "/" "README.md" = 0
  ∧ fst (_scrape_code_for_file flat_env example_git "README.md" initial_world)
    = Raise IndexError_out_of_range
  ∧ stdout (snd (main flat_env [] initial_world))
    = ["An error occurred: list index out of range"]
  ∧ files (snd (main flat_env [] initial_world)) = ∅.
Proof.
  split; [reflexivity|].
  destruct (scrape_file_no_separator flat_env example_git "README.md" initial_world
              eq_refl) as (Hcall & _ & _ & _ & Hrun).
  split; [by rewrite Hcall|].
  destruct (Hrun [] ["Selfcord-abc123/README.md"; "README.md"]
              (log_request "https://api.github.com/repos/Shell1010/Selfcord/zipball/main"
                 (log_request "https://api.github.com/repos/Shell1010/Selfcord/zipball/main"
                    initial_world)))
    as (_ & Hout & Hfiles).
  - reflexivity.
  - right. left.
  - split; [exact Hout|exact Hfiles].
Defined.




(** * Further properties of the code *)

(** ** The per-file fetcher *)

Lemma any_endswith_true file_name (exts : list string) :
  Py.any (λ ext, Py.endswith file_name ext) exts = true
  ↔ ∃ ext front, ext ∈ exts ∧ file_name = front +:+ ext.
Proof.
  unfold Py.any. induction exts as [|ext exts IH]; simpl.
  - split; [done|]. by intros (? & ? & ?%elem_of_nil & _).
  - rewrite orb_true_iff, IH, endswith_spec. split.
    + intros [[front ->]|(ext' & front & Hin & ->)].
      * exists ext, front. split; [left|done].
      * exists ext', front. split; [by right|done].
    + intros (ext' & front & [->|Hin]%elem_of_cons & ->); [left|right]; eauto.
Qed.

Lemma snoc_ne {A} (l : list A) x : l ++ [x] ≠ l.
Proof. intros Heq%(f_equal length). rewrite length_app in Heq. simpl in Heq. lia. Qed.

(** Where a call leaves the world. *)
Lemma scrape_file_world env self path w :
  snd (_scrape_code_for_file env self path w)
  = match request_of self path with
    | Some url => log_request url w
    | None => w
    end.
Proof.
  rewrite scrape_file_unfold. unfold request_of.
  destruct (last _); [|done]. destruct (Py.any _ _); [|done]. cbn zeta.
  destruct (http_get env _); [|done]. by destruct (http_error_status _).
Qed.


(** X2. A call sends at most one request, to the raw URL built from the path
    pieces after the first; it sends it exactly when the file name is some
    text followed by an allowed extension. *)
Theorem scrape_file_requests_iff_suffix env self path w :
  (requested (snd (_scrape_code_for_file env self path w)) = requested w
   ∨ requested (snd (_scrape_code_for_file env self path w))
     = requested w ++ [raw_url self (tail (Py.split "/" path))])
  ∧ (requested (snd (_scrape_code_for_file env self path w)) ≠ requested w
     ↔ ∃ file_name ext front,
         last (tail (Py.split "/" path)) = Some file_name
         ∧ ext ∈ allowed_extensions self
         ∧ file_name = front +:+ ext).
Proof.
  rewrite scrape_file_world. unfold request_of.
  destruct (last (tail (Py.split "/" path))) as [file_name|] eqn:Hname.
  - destruct (Py.any _ _) eqn:Hany.
    + split; [by right|]. split.
      * intros _. apply any_endswith_true in Hany as (ext & front & Hin & ->).
        by exists (front +:+ ext), ext, front.
      * intros _. apply snoc_ne.
    + split; [by left|]. split; [done|].
      intros (file_name' & ext & front & [= <-] & Hin & Heq).
      assert (Py.any (λ ext, Py.endswith file_name ext) (allowed_extensions self) = true)
        as Htrue by (apply any_endswith_true; eauto).
      congruence.
  - split; [by left|]. split; [done|]. by intros (? & ? & ? & [=] & _).
Qed.

(** X3. For an entry [top/relative] whose file name passes the extension
    test, the one request of the call goes to the raw-content URL of
    [relative]: the top-level directory of the archive is dropped and the
    rest of the path is kept as it is. *)
Theorem scrape_file_url_strips_top env self top relative file_name w :
  Py.count "/" top = 0 →
  last (Py.split "/" relative) = Some file_name →
  Py.any (λ ext, Py.endswith file_name ext) (allowed_extensions self) = true →
  requested (snd (_scrape_code_for_file env self (top +:+ "/" +:+ relative) w))
  = requested w ++ ["https://raw.githubusercontent.com/" +:+ owner self +:+ "/"
                      +:+ repo self +:+ "/main/" +:+ relative].
Proof.
  intros Htop Hname Hany.
  destruct (entry_path_anatomy self top relative Htop) as [Hparts Hurl].
  rewrite scrape_file_world. unfold request_of.
  by rewrite Hurl, Hparts, Hname, Hany.
Qed.

Lemma scrape_file_url_strips_top_witness :
  requested (snd (_scrape_code_for_file example_env example_git
                    ("Selfcord-abc123" +:+ "/" +:+ "docs/gone.md") initial_world))
  = ["https://raw.githubusercontent.com/Shell1010/Selfcord/main/docs/gone.md"].
Proof.
  exact (scrape_file_url_strips_top example_env example_git "Selfcord-abc123"
           "docs/gone.md" "gone.md" initial_world eq_refl eq_refl eq_refl).
Defined.

(** X4. A non-empty string returned by a call is always a fragment: the file
    name passed the extension test, the fetch gave a response without a
    4xx/5xx status, and the string is the markers around the response
    text. *)
Theorem scrape_file_nonempty_inv env self path fragment w :
  fst (_scrape_code_for_file env self path w) = Return fragment →
  fragment ≠ EmptyString →
  ∃ file_name response,
    last (tail (Py.split "/" path)) = Some file_name
    ∧ Py.any (λ ext, Py.endswith file_name ext) (allowed_extensions self) = true
    ∧ http_get env (raw_url self (tail (Py.split "/" path))) = Responded response
    ∧ http_error_status (status_code response) = false
    ∧ fragment = start_marker (raw_url self (tail (Py.split "/" path)))
                   +:+ text response +:+ end_marker file_name.
Proof.
  rewrite scrape_file_result, worker_result_unfold.
  destruct (last _) as [file_name|]; [|done].
  destruct (Py.any _ _) eqn:Hany; [|by intros [= <-]]. cbn zeta.
  destruct (http_get env _) as [response|msg] eqn:Hget; [|by intros [= <-]].
  destruct (http_error_status _) eqn:Hok; [by intros [= <-]|].
  intros [= <-] _. by exists file_name, response.
Qed.

Lemma scrape_file_nonempty_inv_witness :
  ∃ file_name response,
    last (tail (Py.split "/" "Selfcord-abc123/README.md")) = Some file_name
    ∧ http_get example_env
        (raw_url example_git (tail (Py.split "/" "Selfcord-abc123/README.md")))
      = Responded response
    ∧ text response = "hello".
Proof.
  destruct (scrape_file_nonempty_inv example_env example_git "Selfcord-abc123/README.md"
              (start_marker "https://raw.githubusercontent.com/Shell1010/Selfcord/main/README.md"
                 +:+ "hello" +:+ end_marker "README.md")
              initial_world eq_refl)
    as (file_name & response & Hname & _ & Hget & _ & _); [discriminate|].
  exists file_name, response. split; [exact Hname|]. split; [exact Hget|].
  vm_compute in Hget. by injection Hget as <-.
Defined.

(** X5. With the empty string among the allowed extensions every file name
    passes the test: each entry with a separator, directory entries
    included, is requested. *)
Theorem empty_extension_requests_all env self path w :
  EmptyString ∈ allowed_extensions self →
  Py.count "/" path ≠ 0 →
  requested (snd (_scrape_code_for_file env self path w))
  = requested w ++ [raw_url self (tail (Py.split "/" path))].
Proof.
  intros Hin [file_name Hname]%file_name_is_Some.
  rewrite scrape_file_world. unfold request_of. rewrite Hname.
  assert (Py.any (λ ext, Py.endswith file_name ext) (allowed_extensions self) = true)
    as ->; [|done].
  apply any_endswith_true. exists EmptyString, file_name.
  by rewrite string_app_empty_r.
Qed.

Lemma empty_extension_requests_all_witness :
  requested (snd (_scrape_code_for_file example_env any_suffix_git "Selfcord-abc123/docs/"
                    initial_world))
  = ["https://raw.githubusercontent.com/Shell1010/Selfcord/main/docs/"].
Proof.
  refine (empty_extension_requests_all example_env any_suffix_git "Selfcord-abc123/docs/"
            initial_world _ _).
  - left.
  - discriminate.
Defined.

(** ** The fan-out and the fan-in *)

Lemma submit_all_world env self file_paths w :
  requested (snd (comprehension (λ path, submit (_scrape_code_for_file env self path))
                    file_paths w))
  = requested w ++ omap (request_of self) file_paths.
Proof.
  revert w. induction file_paths as [|path file_paths IH]; intros w;
    cbn [comprehension omap list_omap].
  - by rewrite app_nil_r.
  - run. unfold submit in *.
    pose proof (scrape_file_world env self path w) as Hworld.
    destruct (_scrape_code_for_file env self path w) as [o w1].
    cbn beta iota zeta. simpl in Hworld. subst w1.
    specialize (IH (match request_of self path with
                    | Some url => log_request url w
                    | None => w
                    end)).
    destruct (comprehension _ file_paths _) as [[futures|e] w2]; simpl in *;
      rewrite IH; destruct (request_of self path); simpl;
      by rewrite <- ?app_assoc.
Qed.

Lemma omap_length_le {A B} (f : A → option B) (l : list A) :
  length (omap f l) ≤ length l.
Proof. induction l as [|x l IH]; csimpl; [done|]. destruct (f x); csimpl; lia. Qed.

Lemma omap_None {A B} (f : A → option B) (l : list A) :
  (∀ x, f x = None) → omap f l = [].
Proof. intros Hf. induction l as [|x l IH]; csimpl; [done|]. by rewrite Hf. Qed.

Lemma joined_all_empty fragments :
  Forall (λ fragment, fragment = EmptyString) fragments → joined fragments = EmptyString.
Proof. induction 1 as [|? ? -> _ IH]; [done|]. simpl. by rewrite IH. Qed.

Lemma joined_length_perm fragments fragments' :
  fragments ≡ₚ fragments' →
  String.length (joined fragments) = String.length (joined fragments').
Proof.
  induction 1 as [|fragment ?? _ IH|fragment fragment' ?|??? _ IH1 _ IH2]; simpl.
  - done.
  - by rewrite !string_app_length, IH.
  - rewrite !string_app_length. lia.
  - congruence.
Qed.


(** X7. The completion order moves fragments around and nothing else: if one
    schedule gives a buffer, every other schedule gives a buffer of the same
    length. *)
Theorem buffer_length_schedule_independent env self sched sched' code_buffer
    file_paths w code :
  fst (scrape_paths env self sched code_buffer file_paths w) = Return code →
  ∃ code',
    fst (scrape_paths env self sched' code_buffer file_paths w) = Return code'
    ∧ String.length code' = String.length code.
Proof.
  rewrite !scrape_paths_run.
  set (outs := worker_result env self <$> file_paths).
  assert (match gather (as_completed sched outs), gather (as_completed sched' outs) with
          | Return l, Return l' => l ≡ₚ l'
          | Raise e, Raise e' => e = e'
          | _, _ => False
          end) as Hperm.
  { apply gather_perm.
    - by rewrite !as_completed_perm.
    - intros e e' He He'. rewrite as_completed_perm in He, He'.
      by eapply workers_raise_alike. }
  destruct (gather (as_completed sched outs)) as [l|e]; [|done].
  destruct (gather (as_completed sched' outs)) as [l'|e']; [|done].
  intros [= <-]. eexists. split; [done|].
  by rewrite !string_app_length, (joined_length_perm l l').
Qed.

Lemma buffer_length_schedule_independent_witness :
  ∃ code',
    fst (scrape_paths example_env example_git [3] EmptyString
           ["Selfcord-abc123/README.md"; "Selfcord-abc123/docs/empty.md"] initial_world)
    = Return code'
    ∧ String.length code'
      = String.length
          ((start_marker "https://raw.githubusercontent.com/Shell1010/Selfcord/main/README.md"
              +:+ "hello" +:+ end_marker "README.md")
           +:+ (start_marker
                  "https://raw.githubusercontent.com/Shell1010/Selfcord/main/docs/empty.md"
                  +:+ EmptyString +:+ end_marker "empty.md")).
Proof.
  exact (buffer_length_schedule_independent example_env example_git [] [3] EmptyString
           ["Selfcord-abc123/README.md"; "Selfcord-abc123/docs/empty.md"] initial_world
           _ eq_refl).
Defined.

(** X8. Every order of the entries is a possible output: for each reordering
    of the entry list some completion order makes the parallel collection
    give what the sequential loop gives on the reordered list.  With the
    list itself, the parallel collection can give the sequential buffer. *)
Theorem every_order_is_a_schedule env self code_buffer file_paths file_paths' w :
  file_paths' ≡ₚ file_paths →
  ∃ sched,
    fst (scrape_paths env self sched code_buffer file_paths w)
    = fst (scrape_paths_sequential env self code_buffer file_paths' w).
Proof.
  intros Hperm.
  destruct (as_completed_complete (worker_result env self <$> file_paths)
              (worker_result env self <$> file_paths')) as [sched Hsched].
  { by apply fmap_Permutation. }
  exists sched. by rewrite scrape_paths_run, scrape_paths_sequential_run, Hsched.
Qed.

Lemma every_order_is_a_schedule_witness :
  ∃ sched,
    fst (scrape_paths example_env example_git sched EmptyString
           ["Selfcord-abc123/README.md"; "Selfcord-abc123/docs/empty.md"] initial_world)
    = Return ((start_marker
                 "https://raw.githubusercontent.com/Shell1010/Selfcord/main/docs/empty.md"
                 +:+ EmptyString +:+ end_marker "empty.md")
              +:+ (start_marker
                     "https://raw.githubusercontent.com/Shell1010/Selfcord/main/README.md"
                     +:+ "hello" +:+ end_marker "README.md")).
Proof.
  exact (every_order_is_a_schedule example_env example_git EmptyString
           ["Selfcord-abc123/README.md"; "Selfcord-abc123/docs/empty.md"]
           ["Selfcord-abc123/docs/empty.md"; "Selfcord-abc123/README.md"] initial_world
           (perm_swap _ _ _)).
Defined.

(** X9. The fan-out sends one request for each entry whose file name passes
    the extension test and none for the others, whatever the completion
    order and whether or not the collection raises. *)
Theorem fan_out_requests env self sched code_buffer file_paths w :
  ∃ urls,
    requested (snd (scrape_paths env self sched code_buffer file_paths w))
    = requested w ++ urls
    ∧ urls ≡ₚ omap (request_of self) file_paths
    ∧ length urls ≤ length file_paths.
Proof.
  exists (omap (request_of self) file_paths).
  rewrite scrape_paths_world, submit_all_world. split; [done|]. split; [done|].
  apply omap_length_le.
Qed.

(** X10. With an empty allow-list nothing is fetched: over entries that all
    hold a separator the collection returns the buffer it started from and
    leaves the world, request log included, as it was. *)
Theorem empty_allow_list_fetches_nothing env self sched code_buffer file_paths w :
  allowed_extensions self = [] →
  Forall (λ path, Py.count "/" path ≠ 0) file_paths →
  scrape_paths env self sched code_buffer file_paths w = (Return code_buffer, w).
Proof.
  intros Hnone Hall.
  assert (∀ path, request_of self path = None) as Hreq.
  { intros path. unfold request_of. rewrite Hnone. by destruct (last _). }
  assert (Forall (λ o, o = Return EmptyString) (worker_result env self <$> file_paths))
    as Houts.
  { apply Forall_fmap. eapply Forall_impl; [exact Hall|]. intros path Hsep. simpl.
    apply file_name_is_Some in Hsep as [file_name Hname].
    by rewrite worker_result_unfold, Hname, Hnone. }
  apply injective_projections.
  - rewrite scrape_paths_run. rewrite <- (as_completed_perm sched) in Houts.
    destruct (gather _) as [l|e] eqn:Hg.
    + apply gather_Return in Hg. rewrite Hg in Houts.
      apply Forall_fmap in Houts.
      rewrite joined_all_empty, string_app_empty_r; [done|].
      eapply Forall_impl; [exact Houts|]. by intros fragment [=].
    + apply gather_Raise in Hg.
      by apply (proj1 (Forall_forall _ _) Houts) in Hg.
  - pose proof (f_equal requested (scrape_paths_world env self sched code_buffer
                                     file_paths w)) as Hlog.
    rewrite submit_all_world in Hlog.
    destruct (scrape_paths_frame env self sched code_buffer file_paths w) as [Hout Hfiles].
    rewrite omap_None, app_nil_r in Hlog by done.
    destruct (snd _) as [rq out fs], w as [rq0 out0 fs0]; simpl in *. by subst.
Qed.

Lemma empty_allow_list_fetches_nothing_witness :
  scrape_paths example_env no_suffix_git [1] "kept"
    ["Selfcord-abc123/README.md"; "Selfcord-abc123/docs/"] initial_world
  = (Return "kept", initial_world).
Proof.
  refine (empty_allow_list_fetches_nothing example_env no_suffix_git [1] "kept"
            ["Selfcord-abc123/README.md"; "Selfcord-abc123/docs/"] initial_world
            eq_refl _).
  repeat constructor; discriminate.
Defined.

(** X11. [scrape_code] only talks to the network: whether it returns or
    raises, the console and the file system are as before. *)
Theorem scrape_code_frame env self sched w :
  stdout (snd (scrape_code env self sched w)) = stdout w
  ∧ files (snd (scrape_code env self sched w)) = files w.
Proof.
  apply (frames_bind (get_all_file_paths env self)
           (scrape_paths env self sched EmptyString)).
  - apply frames_get_all_file_paths.
  - intros file_paths w'. apply scrape_paths_frame.
Qed.

(** ** The archive steps *)

(** The locator sends one request, whatever comes of it. *)
Lemma get_archive_url_log env self w :
  requested (snd (get_archive_url env self w)) = requested w ++ [zipball_url self].
Proof.
  rewrite get_archive_url_unfold, make_request_unfold.
  destruct (http_get env (zipball_url self)) as [response|msg]; [|done].
  destruct (http_error_status _); [done|].
  destruct (status_code response =? 302)%Z; [|done].
  by destruct (_store (headers response) !! "location") as [[key value]|].
Qed.



(** X13. A 302 response that has no Location header under any spelling
    makes [get_archive_url] raise KeyError at the header lookup, after its
    one request; the error carries the lower-cased key, which is what the
    run then prints. *)
Theorem get_archive_url_missing_location env self response w :
  http_get env (zipball_url self) = Responded response →
  status_code response = 302%Z →
  _store (headers response) !! "location" = None →
  get_archive_url env self w
  = (Raise (Exn KeyError (SQ +:+ "location" +:+ SQ)), log_request (zipball_url self) w).
Proof.
  intros Hget Hstatus Hlocation.
  rewrite get_archive_url_unfold, make_request_unfold, Hget, Hstatus.
  change (http_error_status 302) with false. cbv iota.
  by rewrite Hstatus, Z.eqb_refl, Hlocation.
Qed.

Lemma get_archive_url_missing_location_witness :
  fst (get_archive_url bare_redirect_env example_git initial_world)
  = Raise (Exn KeyError (SQ +:+ "location" +:+ SQ))
  ∧ stdout (snd (main bare_redirect_env [] initial_world))
    = ["An error occurred: " +:+ SQ +:+ "location" +:+ SQ].
Proof.
  split; [|reflexivity].
  exact (f_equal fst
    (get_archive_url_missing_location bare_redirect_env example_git
       (example_response 302 EmptyString) initial_world eq_refl eq_refl eq_refl)).
Defined.

(** X14. When [get_all_file_paths] returns, it has sent two requests, the
    first to the zipball endpoint and the second to the URL the locator
    returned; the second response has no 4xx/5xx status and the names are
    the entries of its content, in archive order; console and files are
    untouched. *)
Theorem get_all_file_paths_returns_inv env self names w w' :
  get_all_file_paths env self w = (Return names, w') →
  ∃ archive_url response,
    fst (get_archive_url env self w) = Return archive_url
    ∧ http_get env archive_url = Responded response
    ∧ http_error_status (status_code response) = false
    ∧ zip_infolist env (content response) = inr names
    ∧ requested w' = requested w ++ [zipball_url self; archive_url]
    ∧ stdout w' = stdout w
    ∧ files w' = files w.
Proof.
  rewrite get_all_file_paths_unfold.
  pose proof (get_archive_url_log env self w) as Hlog.
  destruct (frames_get_archive_url env self w) as [Hout Hfiles].
  destruct (get_archive_url env self w) as [[archive_url|e] w1]; [|done].
  rewrite make_request_unfold.
  destruct (http_get env archive_url) as [response|msg] eqn:Hget; [|done].
  destruct (http_error_status (status_code response)) eqn:Hok; [done|].
  destruct (zip_infolist env (content response)) as [msg|names'] eqn:Hzip; [done|].
  intros [= <- <-]. exists archive_url, response. simpl in *.
  repeat split; try done. by rewrite Hlog, <- app_assoc.
Qed.

Lemma get_all_file_paths_returns_inv_witness :
  ∃ archive_url,
    fst (get_archive_url codeload_env example_git initial_world) = Return archive_url
    ∧ requested (log_request "https://codeload.github.com/x.zip"
                   (log_request
                      "https://api.github.com/repos/Shell1010/Selfcord/zipball/main"
                      initial_world))
      = [zipball_url example_git; archive_url].
Proof.
  destruct (get_all_file_paths_returns_inv codeload_env example_git
              ["Selfcord-abc123/"; "Selfcord-abc123/README.md"] initial_world
              (log_request "https://codeload.github.com/x.zip"
                 (log_request
                    "https://api.github.com/repos/Shell1010/Selfcord/zipball/main"
                    initial_world))
              eq_refl)
    as (archive_url & response & Hurl & _ & _ & _ & Hlog & _).
  exists archive_url. split; [exact Hurl|exact Hlog].
Defined.

(** X15. When the endpoint answers the locator with a status that neither
    raises nor is 302, the locator returns the endpoint URL itself and the
    download request goes to that same URL: the endpoint is requested
    twice. *)
Theorem get_all_file_paths_downloads_twice env self response w :
  http_get env (zipball_url self) = Responded response →
  ¬ (400 ≤ status_code response < 600)%Z →
  status_code response ≠ 302%Z →
  fst (get_archive_url env self w) = Return (zipball_url self)
  ∧ requested (snd (get_all_file_paths env self w))
    = requested w ++ [zipball_url self; zipball_url self].
Proof.
  intros Hget Hok Hstatus%Z.eqb_neq.
  assert (http_error_status (status_code response) = false) as Hok'.
  { unfold http_error_status. lia. }
  rewrite get_all_file_paths_unfold, get_archive_url_unfold, !make_request_unfold,
    Hget, Hok', Hstatus.
  split; [done|].
  rewrite make_request_unfold, Hget, Hok'.
  destruct (zip_infolist env (content response)); simpl; by rewrite <- app_assoc.
Qed.

Lemma get_all_file_paths_downloads_twice_witness :
  requested (snd (get_all_file_paths example_env example_git initial_world))
  = ["https://api.github.com/repos/Shell1010/Selfcord/zipball/main";
     "https://api.github.com/repos/Shell1010/Selfcord/zipball/main"].
Proof.
  refine (proj2 (get_all_file_paths_downloads_twice example_env example_git
                   (example_response 200 "PK") initial_world eq_refl _ _)).
  - simpl. lia.
  - discriminate.
Defined.

(** X16. When a 302 response with a Location header, under any spelling of
    the name, is observed, the archive is downloaded from the header's URL:
    the second request goes there and the entries, or the failure, are
    those of that download. *)
Theorem get_all_file_paths_follows_location env self response name redirect_url w :
  http_get env (zipball_url self) = Responded response →
  status_code response = 302%Z →
  _store (headers response) !! "location" = Some (name, redirect_url) →
  requested (snd (get_all_file_paths env self w))
  = requested w ++ [zipball_url self; redirect_url]
  ∧ fst (get_all_file_paths env self w)
    = match http_get env redirect_url with
      | Failed msg => Raise (Exn RequestException msg)
      | Responded archive =>
          if http_error_status (status_code archive)
          then Raise (Exn HTTPError (http_error_msg env archive))
          else match zip_infolist env (content archive) with
               | inr names => Return names
               | inl msg => Raise (Exn BadZipFile msg)
               end
      end.
Proof.
  intros Hget Hstatus Hlocation.
  rewrite get_all_file_paths_unfold, get_archive_url_unfold, make_request_unfold,
    Hget, Hstatus.
  change (http_error_status 302) with false. cbv iota.
  rewrite Hstatus, Z.eqb_refl, Hlocation, make_request_unfold.
  destruct (http_get env redirect_url) as [archive|msg]; simpl;
    [|by rewrite <- app_assoc].
  destruct (http_error_status (status_code archive)); simpl;
    [by rewrite <- app_assoc|].
  destruct (zip_infolist env (content archive)); simpl; by rewrite <- app_assoc.
Qed.

Lemma get_all_file_paths_follows_location_witness :
  requested (snd (get_all_file_paths codeload_env example_git initial_world))
  = ["https://api.github.com/repos/Shell1010/Selfcord/zipball/main";
     "https://codeload.github.com/x.zip"]
  ∧ fst (get_all_file_paths codeload_env example_git initial_world)
    = Return ["Selfcord-abc123/"; "Selfcord-abc123/README.md"]
  ∧ requested (snd (get_all_file_paths lowercase_redirect_env example_git initial_world))
    = ["https://api.github.com/repos/Shell1010/Selfcord/zipball/main";
       "https://codeload.github.com/x.zip"].
Proof.
  split; [|split].
  - exact (proj1 (get_all_file_paths_follows_location codeload_env example_git
                    (redirect_response "https://codeload.github.com/x.zip") "Location"
                    "https://codeload.github.com/x.zip" initial_world
                    eq_refl eq_refl eq_refl)).
  - exact (proj2 (get_all_file_paths_follows_location codeload_env example_git
                    (redirect_response "https://codeload.github.com/x.zip") "Location"
                    "https://codeload.github.com/x.zip" initial_world
                    eq_refl eq_refl eq_refl)).
  - exact (proj1 (get_all_file_paths_follows_location lowercase_redirect_env example_git
                    _ "location" "https://codeload.github.com/x.zip" initial_world
                    eq_refl eq_refl eq_refl)).
Defined.

(** X17. When the locator raises, [get_all_file_paths] raises the same
    exception and sends no second request. *)
Theorem get_all_file_paths_locator_failure env self e w :
  fst (get_archive_url env self w) = Raise e →
  fst (get_all_file_paths env self w) = Raise e
  ∧ requested (snd (get_all_file_paths env self w)) = requested w ++ [zipball_url self].
Proof.
  rewrite get_all_file_paths_unfold.
  pose proof (get_archive_url_log env self w) as Hlog.
  destruct (get_archive_url env self w) as [[archive_url|e'] w1]; [done|].
  by intros [= ->].
Qed.

Lemma get_all_file_paths_locator_failure_witness :
  fst (get_all_file_paths missing_env example_git initial_world)
  = Raise (Exn HTTPError "404 Client Error: Not Found")
  ∧ requested (snd (get_all_file_paths missing_env example_git initial_world))
    = ["https://api.github.com/repos/Shell1010/Selfcord/zipball/main"].
Proof.
  exact (get_all_file_paths_locator_failure missing_env example_git
           (Exn HTTPError "404 Client Error: Not Found") initial_world eq_refl).
Defined.

(** ** The module-level run *)

(** X18. Whatever [scrape_code] raises, from the archive steps or from the
    fan-in, the run catches: it prints the error line and nothing else, and
    reaches neither the elapsed-time line nor the file write. *)
Theorem main_reports_scrape_failure env sched w e :
  fst (scrape_code env example_git sched w) = Raise e →
  fst (main env sched w) = Return ()
  ∧ stdout (snd (main env sched w)) = stdout w ++ ["An error occurred: " +:+ exn_str e]
  ∧ files (snd (main env sched w)) = files w.
Proof.
  intros Hraise.
  destruct (frames_bind (get_all_file_paths env example_git)
              (scrape_paths env example_git sched EmptyString)
              (frames_get_all_file_paths env example_git)
              (λ file_paths w', scrape_paths_frame env example_git sched EmptyString
                                  file_paths w') w) as [Hout Hfiles].
  change (bind (get_all_file_paths env example_git)
            (scrape_paths env example_git sched EmptyString))
    with (scrape_code env example_git sched) in Hout, Hfiles, Hraise.
  rewrite main_unfold. unfold scrape_code in *. run.
  destruct (get_all_file_paths env example_git w) as [[file_paths|e'] w1].
  - destruct (scrape_paths env example_git sched EmptyString file_paths w1)
      as [[code|e'] w2]; simpl in *; [done|].
    injection Hraise as ->. by rewrite Hout, Hfiles.
  - simpl in *. injection Hraise as ->. by rewrite Hout, Hfiles.
Qed.

Lemma main_reports_scrape_failure_witness :
  stdout (snd (main flat_env [1] initial_world))
  = ["An error occurred: list index out of range"]
  ∧ files (snd (main flat_env [1] initial_world)) = ∅.
Proof.
  exact (proj2 (main_reports_scrape_failure flat_env [1] initial_world
                  IndexError_out_of_range eq_refl)).
Defined.

(** ** The constructor and the whole scrape *)

(** X19. Built without an extension list, the object keeps the owner and the
    repository name and fetches exactly the entries whose file name is some
    text followed by [.md]; it behaves as the object built with the list
    [[".md"]]. *)
Theorem default_extension_is_md env repository_owner repository_name path w :
  let self := __init__ repository_owner repository_name None in
  owner self = repository_owner
  ∧ repo self = repository_name
  ∧ self = __init__ repository_owner repository_name (Some [".md"])
  ∧ (requested (snd (_scrape_code_for_file env self path w)) ≠ requested w
     ↔ ∃ file_name front,
         last (tail (Py.split "/" path)) = Some file_name
         ∧ file_name = front +:+ ".md").
Proof.
  intros self. split; [done|]. split; [done|]. split; [done|].
  rewrite scrape_file_world. unfold request_of.
  destruct (last (tail (Py.split "/" path))) as [file_name|].
  - destruct (Py.any _ _) eqn:Hany.
    + split; [|intros _; apply snoc_ne]. intros _.
      apply any_endswith_true in Hany as (ext & front & Hin & ->).
      apply list_elem_of_singleton in Hin as ->. by exists (front +:+ ".md"), front.
    + split; [done|]. intros (file_name' & front & [= <-] & Heq).
      assert (Py.any (λ ext, Py.endswith file_name ext) (allowed_extensions self) = true)
        as Htrue; [|congruence].
      apply any_endswith_true. exists ".md", front. split; [left|done].
  - split; [done|]. by intros (? & ? & [=] & _).
Qed.

Lemma default_extension_is_md_witness :
  requested (snd (_scrape_code_for_file example_env (__init__ "Shell1010" "Selfcord" None)
                    "Selfcord-abc123/docs/gone.md" initial_world))
  ≠ requested initial_world.
Proof.
  apply (proj2 (proj2 (proj2
    (default_extension_is_md example_env "Shell1010" "Selfcord"
       "Selfcord-abc123/docs/gone.md" initial_world)))).
  exists "gone.md", "gone". split; reflexivity.
Defined.




Lemma scrape_file_requests_iff_suffix_witness :
  requested (snd (_scrape_code_for_file example_env example_git
                    "Selfcord-abc123/README.md" initial_world))
  ≠ requested initial_world.
Proof.
  apply (proj2 (scrape_file_requests_iff_suffix example_env example_git
                  "Selfcord-abc123/README.md" initial_world)).
  exists "README.md", ".md", "README". split; [reflexivity|]. split; [left|reflexivity].
Defined.

